(** * The LangGraph documentation retrieval pipeline

    A shallow embedding of [doc_utils.py], [vectorstore_utils.py] and
    [langgraph-mcp.py], and the properties of the pipeline that follow from
    the code.

    The pipeline is glue around third-party components (BeautifulSoup,
    tiktoken, the recursive URL loader, the text splitter, the sklearn vector
    store, the YAML reader).  Each of them enters the development as a field
    of an interface record, so that every theorem holds for whatever the
    component computes; concrete instances are given at the end of the
    definitions and are used to run the code on examples. *)

From Equations Require Import Equations.
From Stdlib Require Import String Ascii DecimalString NArith ZArith Arith Lia Bool List.
Import ListNotations.

Set Implicit Arguments.

(* ===================================================================== *)
(** * Python strings *)
(* ===================================================================== *)

(** A Python [str] is a sequence of Unicode code points.  Code points are
    kept as numbers so that [str.strip] and the regular expression of
    [bs4_extractor] see every character Python sees, not only ASCII. *)
Module PyStr.

Definition char := N.
Definition str := list char.

(** A literal of the source, as a Python string. *)
Definition lit (s : string) : str :=
  List.map N_of_ascii (list_ascii_of_string s).

(** ["\n"] *)
Definition nl : char := 10%N.

(** [str.isspace] on one character: the code points CPython classifies as
    whitespace (U+0009..U+000D, U+001C..U+0020, U+0085, U+00A0, U+1680,
    U+2000..U+200A, U+2028, U+2029, U+202F, U+205F, U+3000). *)
Definition isspace (c : char) : bool :=
  ((9 <=? c) && (c <=? 13) || (28 <=? c) && (c <=? 32)
   || (c =? 133) || (c =? 160) || (c =? 5760)
   || (8192 <=? c) && (c <=? 8202)
   || (c =? 8232) || (c =? 8233) || (c =? 8239) || (c =? 8287)
   || (c =? 12288))%N.

(** [s.lstrip()], [s.rstrip()] and [s.strip()] without argument. *)
Fixpoint lstrip (s : str) : str :=
  match s with
  | [] => []
  | c :: t => if isspace c then lstrip t else s
  end.

Definition rstrip (s : str) : str := rev (lstrip (rev s)).

Definition strip (s : str) : str := rstrip (lstrip s).

(** [a == b] on strings. *)
Fixpoint eqb (a b : str) : bool :=
  match a, b with
  | [], [] => true
  | x :: a', y :: b' => (x =? y)%N && eqb a' b'
  | _, _ => false
  end.

(** [s.startswith(p)] and [p in s]. *)
Fixpoint startswith (s p : str) {struct p} : bool :=
  match p, s with
  | [], _ => true
  | x :: p', y :: s' => (x =? y)%N && startswith s' p'
  | _ :: _, [] => false
  end.

Fixpoint contains (s p : str) : bool :=
  startswith s p || match s with [] => false | _ :: t => contains t p end.

(** The number of positions of [s] at which [p] occurs. *)
Fixpoint count_sub (s p : str) : nat :=
  (if startswith s p then 1 else 0)
  + match s with [] => 0 | _ :: t => count_sub t p end.

(** [sep.join(parts)] *)
Fixpoint join (sep : str) (parts : list str) : str :=
  match parts with
  | [] => []
  | [p] => p
  | p :: rest => p ++ sep ++ join sep rest
  end.

(** [str(n)] for a non-negative [int]. *)
Definition str_of_nat (n : nat) : str :=
  lit (NilZero.string_of_uint (Nat.to_uint n)).

(** [enumerate(l)] *)
Definition enumerate {A} (l : list A) : list (nat * A) :=
  combine (seq 0 (length l)) l.

(** The characters matched greedily by ["\n+"] at the head of [s] are
    dropped; what is left is returned. *)
Fixpoint skip_newlines (s : str) : str :=
  match s with
  | [] => []
  | c :: t => if (c =? nl)%N then skip_newlines t else s
  end.

(** [re.sub(r"\n\n+", "\n\n", s)]: scanning from the left, wherever two
    newlines start a match the whole run of newlines is consumed and
    replaced by two; any other character is copied. *)
Equations? re_sub_blank_lines (s : str) : str by wf (length s) lt :=
  re_sub_blank_lines [] := [];
  re_sub_blank_lines [c] := [c];
  re_sub_blank_lines (a :: b :: t) with ((a =? nl) && (b =? nl))%N => {
    | true := nl :: nl :: re_sub_blank_lines (skip_newlines t);
    | false := a :: re_sub_blank_lines (b :: t) }.
Proof.
  assert (Hlen : forall u : str, length (skip_newlines u) <= length u).
  { induction u as [|c u IH]; simpl; [lia|].
    destruct (c =? nl)%N; simpl; lia. }
  specialize (Hlen t). simpl. lia.
Qed.

(** The shapes [bs4_extractor] removes from a text. *)
Definition leading_whitespace (s : str) : Prop :=
  exists c t, s = c :: t /\ isspace c = true.

Definition trailing_whitespace (s : str) : Prop :=
  exists t c, s = t ++ [c] /\ isspace c = true.

Definition newline_run3 (s : str) : Prop :=
  exists a b, s = a ++ [nl; nl; nl] ++ b.

(** Three newlines in a row somewhere in [s], as a test. *)
Fixpoint run3b (s : str) : bool :=
  match s with
  | [] => false
  | a :: t =>
      match t with
      | b :: c :: _ => (a =? nl)%N && (b =? nl)%N && (c =? nl)%N
      | _ => false
      end || run3b t
  end.

(** A pattern without newline, and a decimal digit. *)
Definition no_newline (p : str) : Prop :=
  Forall (fun c => (c =? nl)%N = false) p.

Definition is_digit (c : char) : Prop := (48 <= c <= 57)%N.

End PyStr.

Import PyStr.

(* ===================================================================== *)
(** * The Python run time: exceptions, logging, files *)
(* ===================================================================== *)

(** The exceptions the three modules can meet.  All of them are instances
    of Python's [Exception]; [LibraryError] stands for whatever a
    third-party component raises while it reads a file, fetches a page or
    builds an index. *)
Inductive exn : Type :=
| FileNotFoundError (path : str)
| IsADirectoryError (path : str)
| YAMLError (problem : str)
| AttributeError (message : string)
| KeyError (key : str)
| TypeError (message : string)
| LibraryError (message : str).

Inductive outcome (A : Type) : Type :=
| Returned (value : A)
| Raised (e : exn).
Arguments Returned {A} value.
Arguments Raised {A} e.

(** The YAML values [yaml.safe_load] builds: scalars, lists, and mappings
    in the order of the file.  A float is kept as its digits; no operation
    of the loader looks inside one. *)
#[warnings="-register-all"]
Inductive yaml : Type :=
| YNone
| YBool (b : bool)
| YInt (n : Z)
| YFloat (digits : str)
| YStr (s : str)
| YList (items : list yaml)
| YDict (items : list (yaml * yaml)).

(** A LangChain [Document]. *)
Record Document : Type := {
  page_content : str;
  metadata : list (str * str)
}.

(** Log records and lines printed on standard output.  A record keeps the
    message of the source with its arguments apart: the ["%s"] of a logger
    call or, for an f-string, one [{}] per interpolated value. *)
Inductive level : Type := INFO | WARNING | ERROR.

Inductive logarg : Type :=
| AStr (s : str)
| ANat (n : nat)
| AExn (e : exn)
| AUrls (urls : list (yaml * list yaml)).

Inductive event : Type :=
| Logged (lvl : level) (message : string) (args : list logarg)
| Printed (line : string) (args : list logarg).

(** Files: a path holds a regular file, a directory, or nothing. *)
Inductive entry : Type :=
| File (content : str)
| Directory.

Definition filesystem := str -> option entry.

Record world : Type := {
  fs : filesystem;
  trace : list event
}.

(** A Python computation: it reads and changes the world and returns or
    raises.  What was logged before an exception stays logged. *)
Definition Py (A : Type) : Type := world -> outcome A * world.

Definition ret {A} (a : A) : Py A := fun w => (Returned a, w).

Definition raise {A} (e : exn) : Py A := fun w => (Raised e, w).

Definition bind {A B} (c : Py A) (k : A -> Py B) : Py B :=
  fun w =>
    match c w with
    | (Returned a, w') => k a w'
    | (Raised e, w') => (Raised e, w')
    end.

Definition lift {A} (o : outcome A) : Py A := fun w => (o, w).

(** [try: body / except ...: handler], followed by [k] on the value of the
    body; the handler re-raises what its clauses do not match. *)
Definition try_except {A B} (body : Py A) (handler : exn -> Py B)
    (k : A -> Py B) : Py B :=
  fun w =>
    match body w with
    | (Returned a, w') => k a w'
    | (Raised e, w') => handler e w'
    end.

Definition emit (ev : event) : Py unit :=
  fun w => (Returned tt, {| fs := fs w; trace := trace w ++ [ev] |}).

(** The world after the events [evs]. *)
Definition logged (w : world) (evs : list event) : world :=
  {| fs := fs w; trace := trace w ++ evs |}.

Definition logger (lvl : level) (message : string) (args : list logarg)
  : Py unit := emit (Logged lvl message args).

Definition print (line : string) (args : list logarg) : Py unit :=
  emit (Printed line args).

Definition obind {A B} (o : outcome A) (k : A -> outcome B) : outcome B :=
  match o with
  | Returned a => k a
  | Raised e => Raised e
  end.

Declare Scope py_scope.
Delimit Scope py_scope with py.
Declare Scope outcome_scope.
Delimit Scope outcome_scope with out.

Notation "x <- c ;; k" := (bind c (fun x => k))
  (at level 61, c at next level, right associativity) : py_scope.
Notation "c ;; k" := (bind c (fun _ => k))
  (at level 61, right associativity) : py_scope.
Notation "x <- c ;; k" := (obind c (fun x => k))
  (at level 61, c at next level, right associativity) : outcome_scope.

(** The comprehension [[f(x) for x in l]], stopping at the first
    exception; and the loop [for x in l: body(x)]. *)
Fixpoint mapM {A B} (f : A -> outcome B) (l : list A) : outcome (list B) :=
  match l with
  | [] => Returned []
  | x :: rest =>
      (y <- f x ;; ys <- mapM f rest ;; Returned (y :: ys))%out
  end.

Fixpoint for_each {A} (l : list A) (body : A -> Py unit) : Py unit :=
  match l with
  | [] => ret tt
  | x :: rest => (body x ;; for_each rest body)%py
  end.

(** [open(path, "r")] followed by reading the whole file. *)
Definition open_read (path : str) : Py str :=
  fun w =>
    match fs w path with
    | None => (Raised (FileNotFoundError path), w)
    | Some Directory => (Raised (IsADirectoryError path), w)
    | Some (File content) => (Returned content, w)
    end.

(** [os.path.exists(path)] *)
Definition os_path_exists (path : str) : Py bool :=
  fun w =>
    (Returned (match fs w path with Some _ => true | None => false end), w).

(** [os.path.join(a, b)] for a relative [b]. *)
Definition os_path_join (a b : str) : str :=
  match rev a with
  | [] => b
  | c :: _ => if (c =? 47)%N then a ++ b else a ++ lit "/" ++ b
  end.

(* ===================================================================== *)
(** * Operations of Python on YAML values *)
(* ===================================================================== *)

(** [v == key] for a string [key]: only a string equals a string. *)
Definition is_str (key : str) (v : yaml) : bool :=
  match v with
  | YStr s => eqb s key
  | _ => false
  end.

Fixpoint lookup (key : str) (items : list (yaml * yaml)) : option yaml :=
  match items with
  | [] => None
  | (k, v) :: rest => if is_str key k then Some v else lookup key rest
  end.

(** [key in v] *)
Definition py_in (key : str) (v : yaml) : outcome bool :=
  match v with
  | YDict items => Returned (existsb (is_str key) (List.map fst items))
  | YList items => Returned (existsb (is_str key) items)
  | YStr s => Returned (contains s key)
  | _ => Raised (TypeError "argument is not iterable")
  end.

(** [v[key]] *)
Definition py_getitem (v : yaml) (key : str) : outcome yaml :=
  match v with
  | YDict items =>
      match lookup key items with
      | Some x => Returned x
      | None => Raised (KeyError key)
      end
  | YList _ => Raised (TypeError "list indices must be integers or slices, not str")
  | YStr _ => Raised (TypeError "string indices must be integers, not 'str'")
  | _ => Raised (TypeError "object is not subscriptable")
  end.

(** [for x in v] *)
Definition py_iter (v : yaml) : outcome (list yaml) :=
  match v with
  | YList items => Returned items
  | YDict items => Returned (List.map fst items)
  | YStr s => Returned (List.map (fun c => YStr [c]) s)
  | _ => Raised (TypeError "object is not iterable")
  end.

(** [v.get(key, default)] and [v.items()]: methods of [dict] only. *)
Definition py_get (v : yaml) (key : str) (default : yaml) : outcome yaml :=
  match v with
  | YDict items =>
      Returned (match lookup key items with Some x => x | None => default end)
  | _ => Raised (AttributeError "object has no attribute 'get'")
  end.

Definition py_items (v : yaml) : outcome (list (yaml * yaml)) :=
  match v with
  | YDict items => Returned items
  | _ => Raised (AttributeError "object has no attribute 'items'")
  end.

(** [a == b] on the keys of a mapping; [True == 1] and [False == 0] as in
    Python.  The keys of one mapping are pairwise different, so two floats
    are only ever compared when they are the same key. *)
Definition key_eqb (a b : yaml) : bool :=
  match a, b with
  | YNone, YNone => true
  | YBool x, YBool y => Bool.eqb x y
  | YBool x, YInt n | YInt n, YBool x => (n =? (if x then 1 else 0))%Z
  | YInt n, YInt m => (n =? m)%Z
  | YFloat x, YFloat y => eqb x y
  | YStr s, YStr t => eqb s t
  | _, _ => false
  end.

(** [d[key] = value] on a dictionary kept in insertion order. *)
Fixpoint dict_set {V} (d : list (yaml * V)) (key : yaml) (value : V)
  : list (yaml * V) :=
  match d with
  | [] => [(key, value)]
  | (k, v) :: rest =>
      if key_eqb k key then (k, value) :: rest
      else (k, v) :: dict_set rest key value
  end.

(* ===================================================================== *)
(** * The third-party components *)
(* ===================================================================== *)

(** What [bs4_extractor] uses of BeautifulSoup: the parser, the search for
    the first node with a given tag name and CSS class, and the text of a
    node or of the whole document. *)
Record Bs4 : Type := {
  soup : Type;
  tag : Type;
  (** [BeautifulSoup(html, "lxml")] *)
  BeautifulSoup : str -> soup;
  (** [soup.find(name, class_=cls)]; [None] when no node matches.  A [Tag]
      is always truthy, so [if main_content] tests for [None] only. *)
  find : soup -> str -> str -> option tag;
  (** [tag.get_text()] *)
  get_text : tag -> str;
  (** [soup.text] *)
  soup_text : soup -> str
}.

(** What [doc_utils.py] uses besides BeautifulSoup. *)
Record DocLibs : Type := {
  bs4 : Bs4;
  (** [yaml.safe_load] on the content of a file; a parse failure is a
      [YAMLError]. *)
  safe_load : str -> outcome yaml;
  (** [RecursiveUrlLoader(url, max_depth, extractor).lazy_load()], run to
      its end: the documents it yields, or the exception that stops it. *)
  lazy_load : yaml -> nat -> (str -> str) -> outcome (list Document);
  (** [tiktoken.get_encoding(model).encode(text)]: the tokens, or the
      exception of a text that holds a special token or of an encoding that
      cannot be loaded. *)
  encode : string -> str -> outcome (list N);
  (** [RecursiveCharacterTextSplitter.from_tiktoken_encoder(chunk_size,
      chunk_overlap).split_documents(documents)] *)
  splitter_split_documents :
    N -> N -> list Document -> outcome (list Document)
}.

(** What [vectorstore_utils.py] and [langgraph-mcp.py] use of the vector
    store. *)
Record StoreLibs : Type := {
  embeddings : Type;
  vectorstore : Type;
  (** [os.getcwd()] when the module is imported *)
  getcwd : str;
  (** [HuggingFaceEmbeddings()] *)
  HuggingFaceEmbeddings : outcome embeddings;
  (** [SKLearnVectorStore(persist_path, embedding, serializer)]: the
      constructor sees the files. *)
  SKLearnVectorStore :
    filesystem -> str -> embeddings -> string -> outcome vectorstore;
  (** [SKLearnVectorStore.from_documents(documents, embedding,
      persist_path, serializer)] *)
  from_documents :
    filesystem -> list Document -> embeddings -> str -> string ->
    outcome vectorstore;
  (** [vectorstore.persist()]: the files afterwards. *)
  persist : vectorstore -> filesystem -> outcome filesystem;
  (** [vectorstore.as_retriever(search_kwargs={"k": k}).invoke(query)] *)
  retriever_invoke : vectorstore -> nat -> str -> outcome (list Document)
}.

(* ===================================================================== *)
(** * doc_utils.py *)
(* ===================================================================== *)

Section Extractor.

Variable lib : Bs4.

(** Line 21 and 22: the content node if there is one, the whole page
    otherwise. *)
Definition main_content (s : soup lib) : option (tag lib) :=
  find lib s (lit "article") (lit "md-content__inner").

Definition selected_content (s : soup lib) : str :=
  match main_content s with
  | Some node => get_text lib node
  | None => soup_text lib s
  end.

Definition bs4_extractor (html : str) : str :=
  let s := BeautifulSoup lib html in
  let content := selected_content s in
  strip (re_sub_blank_lines content).

End Extractor.

Section DocUtils.

Variable libs : DocLibs.

Definition count_tokens_with (model : string) (text : str) : outcome nat :=
  (tokens <- encode libs model text ;; Returned (length tokens))%out.

(** [count_tokens(text)] with the default model. *)
Definition count_tokens (text : str) : outcome nat :=
  count_tokens_with "cl100k_base" text.

(** Lines 61 to 68: the dictionary [urls]. *)
Definition guide_urls (content : yaml) : outcome (list yaml) :=
  (guides <- py_getitem content (lit "guides") ;;
   guides <- py_iter guides ;;
   mapM (fun guide => py_getitem guide (lit "url")) guides)%out.

Definition link_urls (content : yaml) : outcome (list yaml) :=
  (guides <- py_getitem content (lit "guides") ;;
   guides <- py_iter guides ;;
   per_guide <- mapM (fun guide =>
                        (links <- py_getitem guide (lit "links") ;;
                         links <- py_iter links ;;
                         mapM (fun link => py_getitem link (lit "url")) links)%out)
                     guides ;;
   Returned (concat per_guide))%out.

Fixpoint extract_urls_loop (items : list (yaml * yaml))
    (urls : list (yaml * list yaml)) : outcome (list (yaml * list yaml)) :=
  match items with
  | [] => Returned urls
  | (category, content) :: rest =>
      (has_guides <- py_in (lit "guides") content ;;
       if has_guides : bool then
         us <- guide_urls content ;;
         extract_urls_loop rest (dict_set urls category us)
       else
         has_links <- py_in (lit "links") content ;;
         if has_links : bool then
           us <- link_urls content ;;
           extract_urls_loop rest (dict_set urls category us)
         else extract_urls_loop rest urls)%out
  end.

Definition extract_urls (langraph_doc : yaml)
  : outcome (list (yaml * list yaml)) :=
  (section <- py_get langraph_doc (lit "langraph") (YDict []) ;;
   items <- py_items section ;;
   extract_urls_loop items [])%out.

(** Lines 72 to 84: every URL of every category is crawled in order. *)
Fixpoint load_url_list (url_list : list yaml) (docs : list Document)
  : outcome (list Document) :=
  match url_list with
  | [] => Returned docs
  | url :: rest =>
      (ds <- lazy_load libs url 5 (bs4_extractor (bs4 libs)) ;;
       load_url_list rest (docs ++ ds))%out
  end.

Fixpoint load_categories (urls : list (yaml * list yaml))
    (docs : list Document) : outcome (list Document) :=
  match urls with
  | [] => Returned docs
  | (_, url_list) :: rest =>
      (docs' <- load_url_list url_list docs ;;
       load_categories rest docs')%out
  end.

(** [doc.metadata.get('source', 'Unknown URL')] *)
Fixpoint metadata_get (m : list (str * str)) (key default : str) : str :=
  match m with
  | [] => default
  | (k, v) :: rest => if eqb k key then v else metadata_get rest key default
  end.

(** Lines 91 to 96: the running total and the list of counts. *)
Fixpoint count_loop (docs : list Document) (total_tokens : nat)
    (tokens_per_doc : list nat) : outcome (nat * list nat) :=
  match docs with
  | [] => Returned (total_tokens, tokens_per_doc)
  | doc :: rest =>
      (token_count <- count_tokens (page_content doc) ;;
       count_loop rest (total_tokens + token_count)
                  (tokens_per_doc ++ [token_count]))%out
  end.

Definition yaml_file_path : str := lit "langraph-doc.yaml".

Definition load_langgraph_docs : Py (list Document * list nat) :=
  (logger INFO "Loading LangGraph documentation..." [] ;;
   try_except
     (file <- open_read yaml_file_path ;; lift (safe_load libs file))
     (fun e =>
        match e with
        | FileNotFoundError _ =>
            logger ERROR "YAML file not found: {}" [AStr yaml_file_path] ;;
            ret ([], [])
        | YAMLError _ =>
            logger ERROR "Error loading YAML file: {}" [AExn e] ;;
            ret ([], [])
        | _ => raise e
        end)
     (fun langraph_doc =>
        urls <- lift (extract_urls langraph_doc) ;;
        logger INFO "Extracted URLs: {}" [AUrls urls] ;;
        docs <- lift (load_categories urls []) ;;
        logger INFO "Loaded {} documents from LangGraph documentation."
               [ANat (length docs)] ;;
        logger INFO "Loaded URLs:" [] ;;
        for_each (enumerate docs)
          (fun '(i, doc) =>
             logger INFO "{}. {}"
               [ANat (i + 1);
                AStr (metadata_get (metadata doc) (lit "source")
                                   (lit "Unknown URL"))]) ;;
        counted <- lift (count_loop docs 0 []) ;;
        let '(total_tokens, tokens_per_doc) := counted in
        logger INFO "Total tokens in loaded documents: {}"
               [ANat total_tokens] ;;
        ret (docs, tokens_per_doc)))%py.

Definition split_documents (documents : list Document)
  : Py (list Document) :=
  (logger INFO "Splitting documents..." [] ;;
   split_docs <- lift (splitter_split_documents libs 8000%N 500%N documents) ;;
   logger INFO "Created {} chunks from documents."
          [ANat (length split_docs)] ;;
   counts <- lift (mapM (fun doc => count_tokens (page_content doc))
                        split_docs) ;;
   let total_tokens := list_sum counts in
   logger INFO "Total tokens in split documents: {}" [ANat total_tokens] ;;
   ret split_docs)%py.

End DocUtils.

(* ===================================================================== *)
(** * vectorstore_utils.py and langgraph-mcp.py *)
(* ===================================================================== *)

Section VectorStore.

Variable libs : StoreLibs.

Definition PERSIST_PATH : str :=
  os_path_join (getcwd libs) (lit "sklearn_vectorstore.parquet").

(** The files as they are now. *)
Definition files : Py filesystem := fun w => (Returned (fs w), w).

Definition write_files (f : filesystem) : Py unit :=
  fun w => (Returned tt, {| fs := f; trace := trace w |}).

(** The expression [SKLearnVectorStore(persist_path=PERSIST_PATH,
    embedding=HuggingFaceEmbeddings(), serializer="parquet")]: the embedding
    model is built first, then the store is read from the files [f]. *)
Definition store_construction (f : filesystem)
  : outcome (vectorstore libs) :=
  (embedding <- HuggingFaceEmbeddings libs ;;
   SKLearnVectorStore libs f PERSIST_PATH embedding "parquet")%out.

Definition load_vectorstore : Py (option (vectorstore libs)) :=
  (found <- os_path_exists PERSIST_PATH ;;
   if found : bool then
     logger INFO "Loading existing SKLearnVectorStore from %s"
            [AStr PERSIST_PATH] ;;
     try_except
       (f <- files ;; lift (store_construction f))
       (fun e =>
          logger ERROR "Error loading vector store: %s" [AExn e] ;;
          ret None)
       (fun vectorstore => ret (Some vectorstore))
   else
     logger WARNING "No existing vector store found at %s"
            [AStr PERSIST_PATH] ;;
     ret None)%py.

Definition create_vectorstore (splits : list Document)
  : Py (vectorstore libs) :=
  (logger INFO "Creating SKLearnVectorStore..." [] ;;
   f <- files ;;
   embedding <- lift (HuggingFaceEmbeddings libs) ;;
   vectorstore <-
     lift (from_documents libs f splits embedding PERSIST_PATH "parquet") ;;
   logger INFO "SKLearnVectorStore created successfully." [] ;;
   f <- files ;;
   f' <- lift (persist libs vectorstore f) ;;
   write_files f' ;;
   logger INFO "SKLearnVectorStore was persisted to %s" [AStr PERSIST_PATH] ;;
   ret vectorstore)%py.

(** The header the query tool puts before the [i]-th document, and the
    block of a document. *)
Definition separator (i : nat) : str :=
  lit "==DOCUMENT " ++ str_of_nat i ++ lit "==".

(** What every separator starts with. *)
Definition marker : str := lit "==DOCUMENT ".

Definition format_doc (entry : nat * Document) : str :=
  let '(i, doc) := entry in
  separator (i + 1) ++ [nl] ++ page_content doc.

Definition langgraph_query_tool (query : str) : Py str :=
  (store <- load_vectorstore ;;
   relevant_docs <-
     match store with
     | None =>
         raise (AttributeError
                  "'NoneType' object has no attribute 'as_retriever'")
     | Some vectorstore => lift (retriever_invoke libs vectorstore 3 query)
     end ;;
   print "Retrieved {} relevant documents" [ANat (length relevant_docs)] ;;
   let formatted_context :=
     join [nl; nl] (List.map format_doc (enumerate relevant_docs)) in
   ret formatted_context)%py.

End VectorStore.

(* ===================================================================== *)
(** * The shape of the configuration file *)
(* ===================================================================== *)

(** An entry [{url: u}]. *)
Definition url_entry (e u : yaml) : Prop :=
  exists fields, e = YDict fields /\ lookup (lit "url") fields = Some u.

(** A category [{guides: [{url: u1}, ...]}] with the URLs [us]. *)
Definition guides_category (content : yaml) (us : list yaml) : Prop :=
  exists fields guides,
    content = YDict fields /\
    lookup (lit "guides") fields = Some (YList guides) /\
    Forall2 url_entry guides us.

(** A category [{links: ...}] without guides. *)
Definition links_category (content : yaml) : Prop :=
  exists fields links,
    content = YDict fields /\
    lookup (lit "guides") fields = None /\
    lookup (lit "links") fields = Some links.

(** [urls[category] = us] for each pair, in order. *)
Definition dict_of (pairs : list (yaml * list yaml))
    (urls : list (yaml * list yaml)) : list (yaml * list yaml) :=
  fold_left (fun d p => dict_set d (fst p) (snd p)) pairs urls.

(* ===================================================================== *)
(** * Small instances of the components, to run the code *)
(* ===================================================================== *)

Module Demo.

(** A parsed page: text nodes and elements with their classes. *)
#[warnings="-register-all"]
Inductive node : Type :=
| Text (s : str)
| Element (name : str) (classes : list str) (children : list node).

Fixpoint node_text (n : node) : str :=
  match n with
  | Text s => s
  | Element _ _ children => concat (List.map node_text children)
  end.

(** The first element, in document order, with the given name and class. *)
Fixpoint find_node (name cls : str) (n : node) : option node :=
  match n with
  | Text _ => None
  | Element nm classes children =>
      if eqb nm name && existsb (eqb cls) classes then Some n
      else
        (fix first (l : list node) : option node :=
           match l with
           | [] => None
           | c :: rest =>
               match find_node name cls c with
               | Some found => Some found
               | None => first rest
               end
           end) children
  end.

(** The tree the lxml parser builds for a page that is plain text, without
    any markup: the text ends up in a paragraph of the body. *)
Definition parse_plain_text (html : str) : node :=
  Element (lit "[document]") []
    [Element (lit "html") []
       [Element (lit "body") [] [Element (lit "p") [] [Text html]]]].

(** A page of two words with two blank lines between them. *)
Definition blank_lines_page : str := lit "a" ++ [nl; nl; nl] ++ lit "b".

(** A page of the documentation site, with a menu and a content node, and
    its tree. *)
Definition article_page : str :=
  lit "<nav>Home</nav><article class=md-content__inner>" ++ [nl]
  ++ lit "Quick start" ++ [nl; nl; nl; nl] ++ lit "Install the package. "
  ++ [nl] ++ lit "</article>".

Definition article_tree : node :=
  Element (lit "[document]") []
    [Element (lit "html") []
       [Element (lit "body") []
          [Element (lit "nav") [] [Text (lit "Home")];
           Element (lit "article") [lit "md-content__inner"]
             [Text ([nl] ++ lit "Quick start" ++ [nl; nl; nl; nl]
                    ++ lit "Install the package. " ++ [nl])]]]].

(** The parser of the examples: the page above, and plain text. *)
Definition demo_parse (html : str) : node :=
  if eqb html article_page then article_tree else parse_plain_text html.

Definition demo_pages : Bs4 := {|
  soup := node;
  tag := node;
  BeautifulSoup := demo_parse;
  find := fun s name cls => find_node name cls s;
  get_text := node_text;
  soup_text := node_text
|}.

(** A file system given by the list of its entries. *)
Fixpoint files_of (l : list (str * entry)) : filesystem :=
  fun path =>
    match l with
    | [] => None
    | (p, e) :: rest => if eqb p path then Some e else files_of rest path
    end.

Definition world_of (l : list (str * entry)) : world :=
  {| fs := files_of l; trace := [] |}.

(** Two configuration files and the values [yaml.safe_load] gives them. *)
Definition guides_yaml : str :=
  lit "{langraph: {tutorials: {guides: [{url: https://docs.example/a}, {url: https://docs.example/b}]}}}".

Definition guides_value : yaml :=
  YDict [(YStr (lit "langraph"),
          YDict [(YStr (lit "tutorials"),
                  YDict [(YStr (lit "guides"),
                          YList [YDict [(YStr (lit "url"),
                                         YStr (lit "https://docs.example/a"))];
                                 YDict [(YStr (lit "url"),
                                         YStr (lit "https://docs.example/b"))]])])])].

Definition links_yaml : str :=
  lit "{langraph: {reference: {links: [{url: https://docs.example/api}]}}}".

Definition links_value : yaml :=
  YDict [(YStr (lit "langraph"),
          YDict [(YStr (lit "reference"),
                  YDict [(YStr (lit "links"),
                          YList [YDict [(YStr (lit "url"),
                                         YStr (lit "https://docs.example/api"))]])])])].

Definition demo_safe_load (content : str) : outcome yaml :=
  if eqb content guides_yaml then Returned guides_value
  else if eqb content links_yaml then Returned links_value
  else Raised (YAMLError (lit "could not parse the document")).

(** A crawler that finds one page under each URL. *)
Definition demo_lazy_load (url : yaml) (max_depth : nat)
    (extractor : str -> str) : outcome (list Document) :=
  match url with
  | YStr u =>
      Returned [{| page_content := extractor (lit "page of " ++ u);
                   metadata := [(lit "source", u)] |}]
  | _ => Raised (TypeError "expected a string")
  end.

(** A tokenizer with one token per character. *)
Definition demo_doc_libs : DocLibs := {|
  bs4 := demo_pages;
  safe_load := demo_safe_load;
  lazy_load := demo_lazy_load;
  encode := fun _ text => Returned text;
  splitter_split_documents := fun _ _ documents => Returned documents
|}.

(** The configuration with two guides, and the documents crawled from
    it. *)
Definition guides_world : world :=
  world_of [(yaml_file_path, File guides_yaml)].

Definition links_world : world :=
  world_of [(yaml_file_path, File links_yaml)].

Definition guides_docs : list Document :=
  [{| page_content := lit "page of https://docs.example/a";
      metadata := [(lit "source", lit "https://docs.example/a")] |};
   {| page_content := lit "page of https://docs.example/b";
      metadata := [(lit "source", lit "https://docs.example/b")] |}].

(** A store that keeps its chunks in a list and writes one chunk per line;
    its retriever answers with the first [k] chunks. *)
Fixpoint lines (s : str) (current : str) : list str :=
  match s with
  | [] => [current]
  | c :: t => if (c =? nl)%N then current :: lines t [] else lines t (current ++ [c])
  end.

Definition chunk (text : str) : Document :=
  {| page_content := text; metadata := [] |}.

Definition demo_store_libs : StoreLibs := {|
  embeddings := unit;
  vectorstore := str * list Document;
  getcwd := lit "/srv/docs";
  HuggingFaceEmbeddings := Returned tt;
  SKLearnVectorStore := fun f path _ _ =>
    match f path with
    | Some (File content) => Returned (path, List.map chunk (lines content []))
    | _ => Raised (LibraryError (lit "cannot read the index"))
    end;
  from_documents := fun _ documents _ path _ => Returned (path, documents);
  persist := fun store f =>
    Returned (fun p =>
                if eqb p (fst store)
                then Some (File (join [nl] (List.map page_content (snd store))))
                else f p);
  retriever_invoke := fun store k _ => Returned (firstn k (snd store))
|}.

Definition index_path : str := lit "/srv/docs/sklearn_vectorstore.parquet".

(** An index of two chunks, as the store above writes it. *)
Definition two_chunks : list Document :=
  [chunk (lit "first chunk"); chunk (lit "second chunk")].

Definition two_chunk_world : world :=
  world_of [(index_path,
             File (lit "first chunk" ++ [nl] ++ lit "second chunk"))].

End Demo.

(* ===================================================================== *)
(** * Further shapes of texts and configurations *)
(* ===================================================================== *)

(** A text that ends, or starts, with a newline; a text with its newlines
    taken out. *)
Definition ends_with_newline (s : str) : Prop := exists p, s = p ++ [nl].

Definition starts_with_newline (s : str) : Prop := exists t, s = nl :: t.

Definition without_newlines (s : str) : str :=
  filter (fun c => negb (c =? nl)%N) s.

(** A category that is a mapping without [guides] and without [links]. *)
Definition plain_category (content : yaml) : Prop :=
  exists fields,
    content = YDict fields /\
    lookup (lit "guides") fields = None /\
    lookup (lit "links") fields = None.

(** A value that is neither a string nor a container: what YAML reads from
    an empty entry, a truth value or a number. *)
Definition scalar (v : yaml) : Prop :=
  match v with
  | YNone | YBool _ | YInt _ | YFloat _ => True
  | _ => False
  end.

(** A guide [{...}] that has no [url]. *)
Definition guide_without_url (g : yaml) : Prop :=
  exists fields, g = YDict fields /\ lookup (lit "url") fields = None.

(** Every key differs from the keys after it. *)
Definition distinct_keys (pairs : list (yaml * list yaml)) : Prop :=
  ForallOrdPairs (fun p q => key_eqb (fst p) (fst q) = false) pairs.

(** The crawl of one URL, as [load_langgraph_docs] sets it up: depth five,
    [bs4_extractor] as extractor. *)
Definition crawl (libs : DocLibs) (url : yaml) : outcome (list Document) :=
  lazy_load libs url 5 (bs4_extractor (bs4 libs)).

(** What the [try] block of [load_langgraph_docs] gives: the parsed
    configuration, or the exception of [open] or of [yaml.safe_load]. *)
Definition read_configuration (libs : DocLibs) (w : world) : outcome yaml :=
  match fs w yaml_file_path with
  | None => Raised (FileNotFoundError yaml_file_path)
  | Some Directory => Raised (IsADirectoryError yaml_file_path)
  | Some (File content) => safe_load libs content
  end.

(** A value that is not a mapping. *)
Definition not_a_mapping (v : yaml) : Prop := forall items, v <> YDict items.

(** The log line of the [i]-th loaded document. *)
Definition loaded_url_line (entry : nat * Document) : event :=
  Logged INFO "{}. {}"
    [ANat (fst entry + 1);
     AStr (metadata_get (metadata (snd entry)) (lit "source")
                        (lit "Unknown URL"))].

(** The token counts of a list of documents, counted in order; the first
    text the tokenizer refuses ends the counting. *)
Definition token_counts (libs : DocLibs) (docs : list Document)
  : outcome (list nat) :=
  mapM (fun d => count_tokens libs (page_content d)) docs.

(* ===================================================================== *)
(** * More instances, for the other paths of the code *)
(* ===================================================================== *)

Module Cases.

Import Demo.

(** The content node of [article_page]. *)
Definition article_node : node :=
  Element (lit "article") [lit "md-content__inner"]
    [Text ([nl] ++ lit "Quick start" ++ [nl; nl; nl; nl]
           ++ lit "Install the package. " ++ [nl])].

(** A page of blanks and blank lines. *)
Definition blank_page : str := lit "  " ++ [nl; nl; nl] ++ lit " ".

(** Configuration files: an empty file, a file without the [langraph]
    key, a category left empty, a guide without [url], a guide whose [url]
    is a number, a category with a title only. *)
Definition url (u : string) : yaml := YDict [(YStr (lit "url"), YStr (lit u))].

Definition config (categories : list (yaml * yaml)) : yaml :=
  YDict [(YStr (lit "langraph"), YDict categories)].

Definition tutorials : yaml * yaml :=
  (YStr (lit "tutorials"),
   YDict [(YStr (lit "guides"), YList [url "https://docs.example/a";
                                        url "https://docs.example/b"])]).

Definition concepts : yaml * yaml :=
  (YStr (lit "concepts"),
   YDict [(YStr (lit "guides"), YList [url "https://docs.example/c"]);
          (YStr (lit "links"), YList [url "https://docs.example/d"])]).

Definition about : yaml * yaml :=
  (YStr (lit "about"), YDict [(YStr (lit "title"), YStr (lit "About"))]).

Definition reference : yaml * yaml :=
  (YStr (lit "reference"),
   YDict [(YStr (lit "links"), YList [url "https://docs.example/api"])]).

Definition untitled_guide : yaml :=
  YDict [(YStr (lit "title"), YStr (lit "Streaming"))].

Definition howtos : yaml * yaml :=
  (YStr (lit "howtos"),
   YDict [(YStr (lit "guides"),
           YList [url "https://docs.example/h"; untitled_guide])]).

Definition numbered : yaml * yaml :=
  (YStr (lit "numbered"),
   YDict [(YStr (lit "guides"),
           YList [YDict [(YStr (lit "url"), YInt 5)]])]).

Definition yaml_files : list (str * outcome yaml) :=
  [([], Returned YNone);
   (lit "version: 1", Returned (YDict [(YStr (lit "version"), YInt 1)]));
   (lit "{langraph: {tutorials: {guides: [{url: https://docs.example/a}, {url: https://docs.example/b}]}}}",
    Returned (config [tutorials]));
   (lit "{langraph: {numbered: {guides: [{url: 5}]}}}",
    Returned (config [numbered]));
   (lit "langraph: !!binary |",
    Raised (LibraryError (lit "incorrect padding")))].

Fixpoint read_table (table : list (str * outcome yaml)) (content : str)
  : outcome yaml :=
  match table with
  | [] => Raised (YAMLError (lit "could not parse the document"))
  | (text, value) :: rest =>
      if eqb text content then value else read_table rest content
  end.

Definition case_doc_libs : DocLibs := {|
  bs4 := demo_pages;
  safe_load := read_table yaml_files;
  lazy_load := demo_lazy_load;
  encode := fun _ text => Returned text;
  splitter_split_documents := fun _ _ documents => Returned documents
|}.

(** A tokenizer that refuses a text holding the special token
    [<|endoftext|>], and a crawler whose pages hold it. *)
Definition strict_encode (model : string) (text : str) : outcome (list N) :=
  if contains text (lit "<|endoftext|>")
  then Raised (LibraryError (lit "disallowed special token"))
  else Returned text.

Definition special_lazy_load (url : yaml) (max_depth : nat)
    (extractor : str -> str) : outcome (list Document) :=
  Returned [{| page_content := extractor (lit "text <|endoftext|> text");
               metadata := [] |}].

Definition strict_doc_libs : DocLibs := {|
  bs4 := demo_pages;
  safe_load := demo_safe_load;
  lazy_load := special_lazy_load;
  encode := strict_encode;
  splitter_split_documents := fun _ _ documents => Returned documents
|}.

(** An index whose chunks quote separators of the tool. *)
Definition marked_chunks : list Document :=
  [chunk (lit "==DOCUMENT 1=="); chunk (lit "see ==DOCUMENT 7== above")].

Definition marked_world : world :=
  world_of [(index_path,
             File (lit "==DOCUMENT 1==" ++ [nl]
                   ++ lit "see ==DOCUMENT 7== above"))].

Definition config_world (content : str) : world :=
  world_of [(yaml_file_path, File content)].

(** A store whose embedding model cannot be built, and one whose files
    cannot be written. *)
Definition offline_store_libs : StoreLibs := {|
  embeddings := unit;
  vectorstore := str * list Document;
  getcwd := lit "/srv/docs";
  HuggingFaceEmbeddings := Raised (LibraryError (lit "model not found"));
  SKLearnVectorStore := SKLearnVectorStore demo_store_libs;
  from_documents := from_documents demo_store_libs;
  persist := persist demo_store_libs;
  retriever_invoke := retriever_invoke demo_store_libs
|}.

Definition busy_store_libs : StoreLibs := {|
  embeddings := unit;
  vectorstore := str * list Document;
  getcwd := lit "/srv/docs";
  HuggingFaceEmbeddings := Returned tt;
  SKLearnVectorStore := SKLearnVectorStore demo_store_libs;
  from_documents := from_documents demo_store_libs;
  persist := fun _ _ => Raised (LibraryError (lit "disk full"));
  retriever_invoke := fun _ _ _ => Raised (LibraryError (lit "index is empty"))
|}.

End Cases.

Import Demo.
Import Cases.

(* ===================================================================== *)
(** * Facts about Python strings *)
(* ===================================================================== *)

Section StringFacts.

Lemma lstrip_suffix (s : str) : exists p, s = p ++ lstrip s.
Proof.
  induction s as [|c t [p Hp]]; simpl.
  - exists []. reflexivity.
  - destruct (isspace c).
    + exists (c :: p). simpl. now rewrite <- Hp.
    + exists []. reflexivity.
Qed.

Lemma lstrip_head (s : str) c t : lstrip s = c :: t -> isspace c = false.
Proof.
  induction s as [|x s IH]; simpl; [discriminate|].
  destruct (isspace x) eqn:Hx; [exact IH|].
  intros [= <- _]. exact Hx.
Qed.

Lemma lstrip_fixed (s : str) : ~ leading_whitespace s -> lstrip s = s.
Proof.
  destruct s as [|c t]; simpl; [reflexivity|].
  intros H. destruct (isspace c) eqn:Hc; [|reflexivity].
  exfalso. apply H. now exists c, t.
Qed.

Lemma rstrip_prefix (s : str) : exists q, s = rstrip s ++ q.
Proof.
  unfold rstrip. destruct (lstrip_suffix (rev s)) as [p Hp].
  exists (rev p). rewrite <- rev_app_distr, <- Hp. now rewrite rev_involutive.
Qed.

Lemma rstrip_last (s : str) t c : rstrip s = t ++ [c] -> isspace c = false.
Proof.
  unfold rstrip. intros H.
  apply (f_equal (@rev char)) in H.
  rewrite rev_involutive, rev_app_distr in H. simpl in H.
  exact (lstrip_head _ H).
Qed.

Lemma rstrip_fixed (s : str) : ~ trailing_whitespace s -> rstrip s = s.
Proof.
  intros H. unfold rstrip. rewrite lstrip_fixed; [apply rev_involutive|].
  intros (c & t & Hrev & Hc). apply H. exists (rev t), c. split; [|exact Hc].
  apply (f_equal (@rev char)) in Hrev. rewrite rev_involutive in Hrev.
  exact Hrev.
Qed.

Lemma strip_infix (s : str) : exists p q, s = p ++ strip s ++ q.
Proof.
  unfold strip. destruct (lstrip_suffix s) as [p Hp].
  destruct (rstrip_prefix (lstrip s)) as [q Hq].
  exists p, q. now rewrite <- Hq.
Qed.

Lemma strip_no_leading (s : str) : ~ leading_whitespace (strip s).
Proof.
  intros (c & t & Hs & Hc). unfold strip in Hs.
  destruct (rstrip_prefix (lstrip s)) as [q Hq]. rewrite Hs in Hq.
  simpl in Hq. apply lstrip_head in Hq. congruence.
Qed.

Lemma strip_no_trailing (s : str) : ~ trailing_whitespace (strip s).
Proof.
  intros (t & c & Hs & Hc). apply rstrip_last in Hs. congruence.
Qed.

Lemma strip_fixed (s : str) :
  ~ leading_whitespace s -> ~ trailing_whitespace s -> strip s = s.
Proof.
  intros Hl Ht. unfold strip. rewrite (lstrip_fixed Hl). now apply rstrip_fixed.
Qed.

Lemma newline_run3_infix (p s q : str) :
  newline_run3 s -> newline_run3 (p ++ s ++ q).
Proof.
  intros (a & b & ->). exists (p ++ a), (b ++ q).
  now rewrite <- !app_assoc.
Qed.

Lemma run3b_spec (s : str) : run3b s = true <-> newline_run3 s.
Proof.
  split.
  - induction s as [|a t IH]; simpl; [discriminate|].
    intros H. apply orb_true_iff in H. destruct H as [H|H].
    + destruct t as [|b [|c u]]; try discriminate.
      apply andb_true_iff in H. destruct H as [H Hc].
      apply andb_true_iff in H. destruct H as [Ha Hb].
      apply N.eqb_eq in Ha, Hb, Hc. subst. now exists [], u.
    + destruct (IH H) as (x & y & ->). now exists (a :: x), y.
  - intros (x & y & ->). induction x as [|a x IH]; simpl.
    + reflexivity.
    + simpl in IH. rewrite IH. apply orb_true_r.
Qed.

Lemma skip_newlines_head (s : str) c t :
  skip_newlines s = c :: t -> (c =? nl)%N = false.
Proof.
  induction s as [|x s IH]; simpl; [discriminate|].
  destruct (x =? nl)%N eqn:Hx; [exact IH|].
  intros [= <- _]. exact Hx.
Qed.

Lemma skip_newlines_fixed (s : str) :
  match s with c :: _ => (c =? nl)%N = false | [] => True end ->
  skip_newlines s = s.
Proof.
  destruct s as [|c t]; simpl; [reflexivity|]. now intros ->.
Qed.

(** The substitution keeps the first character of its input. *)
Lemma re_sub_blank_lines_head (c : char) (t : str) :
  exists r, re_sub_blank_lines (c :: t) = c :: r.
Proof.
  destruct t as [|b t]; simp re_sub_blank_lines; [now exists []|].
  destruct ((c =? nl)%N && (b =? nl)%N) eqn:H; simpl.
  - apply andb_true_iff in H. destruct H as [H _]. apply N.eqb_eq in H.
    subst. eexists. reflexivity.
  - eexists. reflexivity.
Qed.

Lemma re_sub_blank_lines_nil_head (s : str) c r :
  re_sub_blank_lines s = c :: r -> exists t, s = c :: t.
Proof.
  destruct s as [|x t]; simp re_sub_blank_lines; [discriminate|].
  destruct (re_sub_blank_lines_head x t) as [r' ->].
  intros [= -> _]. now exists t.
Qed.

(** After the substitution no three newlines are left in a row. *)
Lemma re_sub_blank_lines_run3b (s : str) :
  run3b (re_sub_blank_lines s) = false.
Proof.
  funelim (re_sub_blank_lines s); simp re_sub_blank_lines;
    try reflexivity;
    match goal with IH : run3b _ = false |- _ => rename IH into IH' end.
  - destruct (re_sub_blank_lines (skip_newlines t)) as [|x r] eqn:Hr.
    + reflexivity.
    + destruct (re_sub_blank_lines_nil_head _ Hr) as [u Hu].
      apply skip_newlines_head in Hu.
      cbn [run3b] in *. rewrite IH', Hu.
      destruct r; now rewrite ?andb_false_r.
  - destruct (re_sub_blank_lines_head b t) as [r Hr]. rewrite Hr in *.
    cbn [run3b] in *. rewrite IH'. destruct r as [|x r]; [reflexivity|].
    rewrite Heq. reflexivity.
Qed.

(** A text without three newlines in a row is left as it is. *)
Lemma re_sub_blank_lines_fixed (s : str) :
  run3b s = false -> re_sub_blank_lines s = s.
Proof.
  funelim (re_sub_blank_lines s); simp re_sub_blank_lines;
    try reflexivity; intros Hs.
  - apply andb_true_iff in Heq. destruct Heq as [Ha Hb].
    apply N.eqb_eq in Ha, Hb. subst a b.
    cbn [run3b] in Hs. apply orb_false_iff in Hs. destruct Hs as [H1 H2].
    apply orb_false_iff in H2. destruct H2 as [_ H2].
    assert (Hskip : skip_newlines t = t).
    { apply skip_newlines_fixed. destruct t as [|c u]; [exact I|].
      simpl in H1. exact H1. }
    rewrite Hskip in *.
    match goal with IH : _ -> re_sub_blank_lines t = t |- _ => rewrite IH end.
    + reflexivity.
    + exact H2.
  - cbn [run3b] in Hs. apply orb_false_iff in Hs. destruct Hs as [_ Hs].
    match goal with IH : _ -> re_sub_blank_lines _ = _ |- _ => rewrite IH end;
      [reflexivity|exact Hs].
Qed.

End StringFacts.

(** The string operations on values Python gives the same results for. *)
Example strip_example :
  strip ([nl] ++ lit "  x y " ++ [nl]) = lit "x y".
Proof. reflexivity. Qed.

Example re_sub_blank_lines_example :
  re_sub_blank_lines (lit "a" ++ [nl; nl; nl; nl] ++ lit "b" ++ [nl] ++ lit "c")
    = lit "a" ++ [nl; nl] ++ lit "b" ++ [nl] ++ lit "c".
Proof. reflexivity. Qed.

Example str_of_nat_example :
  str_of_nat 0 = lit "0" /\ str_of_nat 3 = lit "3" /\ str_of_nat 12 = lit "12".
Proof. repeat split. Qed.

Example join_example :
  join (lit ", ") [lit "a"; lit "b"; lit "c"] = lit "a, b, c".
Proof. reflexivity. Qed.

(* ===================================================================== *)
(** * The extractor *)
(* ===================================================================== *)

(** C10.  Whatever the page, the text [bs4_extractor] returns neither
    starts nor ends with a whitespace character, and nowhere holds three
    newlines in a row: a run of blank lines has become one blank line. *)
Theorem bs4_extractor_normalised (lib : Bs4) (html : str) :
  ~ leading_whitespace (bs4_extractor lib html) /\
  ~ trailing_whitespace (bs4_extractor lib html) /\
  ~ newline_run3 (bs4_extractor lib html).
Proof.
  unfold bs4_extractor. repeat split.
  - apply strip_no_leading.
  - apply strip_no_trailing.
  - intros Hrun.
    set (content := selected_content lib (BeautifulSoup lib html)) in *.
    destruct (strip_infix (re_sub_blank_lines content)) as (p & q & Hpq).
    apply (newline_run3_infix p q) in Hrun. rewrite <- Hpq in Hrun.
    apply run3b_spec in Hrun.
    rewrite re_sub_blank_lines_run3b in Hrun. discriminate.
Qed.

(** The extractor on a page with a content node: the menu is left out, the
    four newlines have become two, and the ends are stripped. *)
Example bs4_extractor_article :
  bs4_extractor demo_pages article_page
    = lit "Quick start" ++ [nl; nl] ++ lit "Install the package.".
Proof. reflexivity. Qed.

(** C6, read to the letter, fails: on a page without content node whose
    text holds two blank lines in a row, the extractor does not return the
    page text as it is but with the blank lines collapsed. *)
Lemma bs4_extractor_fallback_not_raw :
  main_content demo_pages (BeautifulSoup demo_pages blank_lines_page) = None /\
  soup_text demo_pages (BeautifulSoup demo_pages blank_lines_page)
    = lit "a" ++ [nl; nl; nl] ++ lit "b" /\
  bs4_extractor demo_pages blank_lines_page = lit "a" ++ [nl; nl] ++ lit "b" /\
  bs4_extractor demo_pages blank_lines_page
    <> soup_text demo_pages (BeautifulSoup demo_pages blank_lines_page).
Proof.
  repeat split; try reflexivity. intros H. vm_compute in H. discriminate.
Qed.

(** C6, amended.  When no [article] node of class [md-content__inner] is
    found, the extractor falls back to the text of the whole page and
    returns it normalised like the content of a matched node: blank lines
    collapsed, then stripped.  A page text that needs no normalisation is
    returned as it is. *)
Theorem bs4_extractor_fallback (lib : Bs4) (html : str) :
  main_content lib (BeautifulSoup lib html) = None ->
  bs4_extractor lib html
    = strip (re_sub_blank_lines (soup_text lib (BeautifulSoup lib html))) /\
  (~ leading_whitespace (soup_text lib (BeautifulSoup lib html)) ->
   ~ trailing_whitespace (soup_text lib (BeautifulSoup lib html)) ->
   ~ newline_run3 (soup_text lib (BeautifulSoup lib html)) ->
   bs4_extractor lib html = soup_text lib (BeautifulSoup lib html)).
Proof.
  intros Hnone. unfold bs4_extractor, selected_content. rewrite Hnone.
  split; [reflexivity|]. intros Hl Ht Hr.
  rewrite re_sub_blank_lines_fixed.
  - now apply strip_fixed.
  - destruct (run3b _) eqn:Hb; [|reflexivity].
    exfalso. apply Hr. now apply run3b_spec.
Qed.

Lemma bs4_extractor_fallback_witness :
  main_content demo_pages (BeautifulSoup demo_pages (lit "plain text")) = None /\
  (bs4_extractor demo_pages (lit "plain text")
     = strip (re_sub_blank_lines
                (soup_text demo_pages (BeautifulSoup demo_pages (lit "plain text")))) /\
   (~ leading_whitespace
        (soup_text demo_pages (BeautifulSoup demo_pages (lit "plain text"))) ->
    ~ trailing_whitespace
        (soup_text demo_pages (BeautifulSoup demo_pages (lit "plain text"))) ->
    ~ newline_run3
        (soup_text demo_pages (BeautifulSoup demo_pages (lit "plain text"))) ->
    bs4_extractor demo_pages (lit "plain text")
      = soup_text demo_pages (BeautifulSoup demo_pages (lit "plain text")))).
Proof.
  split; [reflexivity|].
  apply (@bs4_extractor_fallback demo_pages (lit "plain text")). reflexivity.
Defined.

(* ===================================================================== *)
(** * The vector store and the query tool *)
(* ===================================================================== *)

Section StoreFacts.

Variable libs : StoreLibs.

Lemma logged_logged (w : world) (a b : list event) :
  logged (logged w a) b = logged w (a ++ b).
Proof. unfold logged. simpl. now rewrite app_assoc. Qed.

(** What [load_vectorstore] does, case by case. *)
Lemma load_vectorstore_cases (w : world) :
  load_vectorstore libs w =
    match fs w (PERSIST_PATH libs) with
    | None =>
        (Returned None,
         logged w [Logged WARNING "No existing vector store found at %s"
                          [AStr (PERSIST_PATH libs)]])
    | Some _ =>
        match store_construction libs (fs w) with
        | Returned store =>
            (Returned (Some store),
             logged w [Logged INFO "Loading existing SKLearnVectorStore from %s"
                              [AStr (PERSIST_PATH libs)]])
        | Raised e =>
            (Returned None,
             logged w [Logged INFO "Loading existing SKLearnVectorStore from %s"
                              [AStr (PERSIST_PATH libs)];
                       Logged ERROR "Error loading vector store: %s" [AExn e]])
        end
    end.
Proof.
  unfold load_vectorstore, bind, os_path_exists.
  destruct (fs w (PERSIST_PATH libs)) as [e|]; [|reflexivity].
  unfold try_except, bind, logger, emit, files, lift. cbn [fs trace].
  destruct (store_construction libs (fs w)); [reflexivity|].
  unfold ret, logged. cbn [fs trace]. now rewrite <- app_assoc.
Qed.

End StoreFacts.

(** C3.  [load_vectorstore] never raises.  Without a file at
    [PERSIST_PATH] it logs a warning and returns [None]; with a file whose
    store cannot be built, whatever exception the construction raises is
    caught and logged as an error, and [None] is returned. *)
Theorem load_vectorstore_never_raises (libs : StoreLibs) (w : world) :
  (exists store w', load_vectorstore libs w = (Returned store, w')) /\
  (fs w (PERSIST_PATH libs) = None ->
   load_vectorstore libs w =
     (Returned None,
      logged w [Logged WARNING "No existing vector store found at %s"
                       [AStr (PERSIST_PATH libs)]])) /\
  (forall e,
     fs w (PERSIST_PATH libs) <> None ->
     store_construction libs (fs w) = Raised e ->
     load_vectorstore libs w =
       (Returned None,
        logged w [Logged INFO "Loading existing SKLearnVectorStore from %s"
                         [AStr (PERSIST_PATH libs)];
                  Logged ERROR "Error loading vector store: %s" [AExn e]])).
Proof.
  rewrite load_vectorstore_cases. repeat split.
  - destruct (fs w (PERSIST_PATH libs));
      [destruct (store_construction libs (fs w))|]; eauto.
  - now intros ->.
  - intros e Hsome Hraise. destruct (fs w (PERSIST_PATH libs)); [|congruence].
    now rewrite Hraise.
Qed.

(** The theorem at work: the index path is a directory, the construction
    raises, and [None] comes back with the error in the log. *)
Lemma load_vectorstore_never_raises_witness :
  fst (load_vectorstore demo_store_libs (world_of [(index_path, Directory)]))
    = Returned None.
Proof.
  destruct (load_vectorstore_never_raises demo_store_libs
              (world_of [(index_path, Directory)])) as (_ & _ & H).
  rewrite (H (LibraryError (lit "cannot read the index"))).
  - reflexivity.
  - discriminate.
  - reflexivity.
Defined.

(** C2.  Without a file at [PERSIST_PATH], [langgraph_query_tool] raises
    for every query: [load_vectorstore] returns [None], and the attribute
    [as_retriever] of [None] does not exist.  No text is returned. *)
Theorem langgraph_query_tool_without_index
    (libs : StoreLibs) (w : world) (query : str) :
  fs w (PERSIST_PATH libs) = None ->
  load_vectorstore libs w =
    (Returned None,
     logged w [Logged WARNING "No existing vector store found at %s"
                      [AStr (PERSIST_PATH libs)]]) /\
  langgraph_query_tool libs query w =
    (Raised (AttributeError "'NoneType' object has no attribute 'as_retriever'"),
     logged w [Logged WARNING "No existing vector store found at %s"
                      [AStr (PERSIST_PATH libs)]]).
Proof.
  intros Habsent. unfold langgraph_query_tool, bind.
  rewrite load_vectorstore_cases, Habsent. split; reflexivity.
Qed.

Lemma langgraph_query_tool_without_index_witness :
  fs (world_of []) (PERSIST_PATH demo_store_libs) = None /\
  fst (langgraph_query_tool demo_store_libs (lit "how do I add memory?")
         (world_of []))
    = Raised (AttributeError "'NoneType' object has no attribute 'as_retriever'").
Proof.
  split; [reflexivity|].
  destruct (@langgraph_query_tool_without_index demo_store_libs (world_of [])
              (lit "how do I add memory?") eq_refl) as [_ H].
  rewrite H. reflexivity.
Defined.

Section QueryToolFacts.

Variable libs : StoreLibs.

Lemma nth_error_enumerate_from {A} (l : list A) (start i : nat) :
  nth_error (combine (seq start (length l)) l) i
    = option_map (fun x => (start + i, x)) (nth_error l i).
Proof.
  revert start i. induction l as [|x l IH]; intros start i; simpl.
  - now destruct i.
  - destruct i as [|i]; simpl.
    + now rewrite Nat.add_0_r.
    + rewrite IH. now rewrite Nat.add_succ_r.
Qed.

Lemma nth_error_enumerate {A} (l : list A) (i : nat) :
  nth_error (enumerate l) i = option_map (fun x => (i, x)) (nth_error l i).
Proof. unfold enumerate. now rewrite nth_error_enumerate_from. Qed.

Lemma length_enumerate {A} (l : list A) : length (enumerate l) = length l.
Proof.
  unfold enumerate. rewrite length_combine, length_seq. apply Nat.min_id.
Qed.

(** With a store, the tool returns the formatted answer of the retriever
    asked for three documents, and prints how many it got. *)
Lemma langgraph_query_tool_with_store
    (w w1 : world) (query : str) (store : vectorstore libs)
    (docs : list Document) :
  load_vectorstore libs w = (Returned (Some store), w1) ->
  retriever_invoke libs store 3 query = Returned docs ->
  langgraph_query_tool libs query w =
    (Returned (join [nl; nl] (List.map format_doc (enumerate docs))),
     logged w1 [Printed "Retrieved {} relevant documents"
                        [ANat (length docs)]]).
Proof.
  intros Hload Hdocs. unfold langgraph_query_tool, bind.
  rewrite Hload. unfold lift. rewrite Hdocs. reflexivity.
Qed.

End QueryToolFacts.

Section SeparatorCount.

Lemma startswith_before_newline (x y p : str) :
  no_newline p -> startswith (x ++ nl :: y) p = startswith x p.
Proof.
  intros Hp. revert p Hp. induction x as [|a x IH]; intros p Hp.
  - destruct p as [|c p]; [reflexivity|]. simpl.
    inversion Hp as [|? ? Hc _]; subst. now rewrite Hc.
  - destruct p as [|c p]; [reflexivity|]. simpl.
    inversion Hp; subst. now rewrite IH.
Qed.

Lemma startswith_nil (x p : str) : p <> [] -> startswith [] p = false.
Proof. destruct p; [congruence|reflexivity]. Qed.

Lemma count_sub_before_newline (x y p : str) :
  no_newline p -> p <> [] ->
  count_sub (x ++ nl :: y) p = count_sub x p + count_sub (nl :: y) p.
Proof.
  intros Hp Hne. induction x as [|a x IH].
  - change (count_sub [] p) with ((if startswith [] p then 1 else 0) + 0).
    now rewrite startswith_nil.
  - change ((a :: x) ++ nl :: y) with (a :: (x ++ nl :: y)).
    cbn [count_sub].
    change (a :: x ++ nl :: y) with ((a :: x) ++ nl :: y).
    rewrite startswith_before_newline by assumption. rewrite IH.
    cbn [count_sub]. lia.
Qed.

Lemma count_sub_absent (s p : str) : contains s p = false -> count_sub s p = 0.
Proof.
  induction s as [|a s IH]; cbn [contains count_sub]; intros H;
    apply orb_false_iff in H; destruct H as [-> H]; [reflexivity|].
  now rewrite IH.
Qed.

Lemma str_of_nat_digits (n : nat) : Forall is_digit (str_of_nat n).
Proof.
  unfold str_of_nat.
  assert (H : forall d, Forall is_digit (lit (NilEmpty.string_of_uint d))).
  { induction d; cbn; constructor; try assumption; unfold is_digit; lia. }
  unfold NilZero.string_of_uint.
  destruct (Nat.to_uint n); try apply H.
  cbn. constructor; [unfold is_digit; lia|constructor].
Qed.

Lemma count_sub_digits (ds rest : str) :
  Forall is_digit ds ->
  count_sub (ds ++ rest) marker = count_sub rest marker.
Proof.
  induction 1 as [|c ds Hc _ IH]; [reflexivity|].
  change ((c :: ds) ++ rest) with (c :: (ds ++ rest)). cbn [count_sub].
  rewrite IH. unfold marker at 1. cbn [lit list_ascii_of_string List.map startswith].
  replace (N_of_ascii "=" =? c)%N with false; [reflexivity|].
  symmetry. apply N.eqb_neq. unfold is_digit in Hc. cbn. lia.
Qed.

Lemma count_sub_separator (i : nat) : count_sub (separator i) marker = 1.
Proof.
  unfold separator.
  change (lit "==DOCUMENT " ++ str_of_nat i ++ lit "==")
    with (61 :: 61 :: 68 :: 79 :: 67 :: 85 :: 77 :: 69 :: 78 :: 84 :: 32
             :: (str_of_nat i ++ lit "=="))%N.
  cbn -[str_of_nat app].
  rewrite (count_sub_digits _ (str_of_nat_digits i)). reflexivity.
Qed.

(** Text that holds no marker adds no occurrence, wherever it stands
    between the newline after a separator and the end or the next pair of
    newlines. *)
Lemma count_sub_format_doc (i : nat) (doc : Document) :
  contains (page_content doc) marker = false ->
  count_sub (format_doc (i, doc)) marker = 1.
Proof.
  intros Hdoc. unfold format_doc. cbn [app].
  rewrite count_sub_before_newline.
  - rewrite count_sub_separator. cbn [count_sub].
    rewrite (count_sub_absent _ _ Hdoc). reflexivity.
  - repeat constructor.
  - discriminate.
Qed.

Lemma count_sub_join_blocks (entries : list (nat * Document)) :
  (forall e, In e entries -> contains (page_content (snd e)) marker = false) ->
  count_sub (join [nl; nl] (List.map format_doc entries)) marker
    = length entries.
Proof.
  induction entries as [|[i doc] entries IH]; intros Hdocs; [reflexivity|].
  assert (Hdoc : count_sub (format_doc (i, doc)) marker = 1).
  { apply count_sub_format_doc. apply (Hdocs (i, doc)). now left. }
  assert (Hrest : count_sub (join [nl; nl] (List.map format_doc entries)) marker
                  = length entries).
  { apply IH. intros e He. apply Hdocs. now right. }
  destruct entries as [|e entries]; [exact Hdoc|].
  change (join [nl; nl] (List.map format_doc ((i, doc) :: e :: entries)))
    with (format_doc (i, doc)
            ++ nl :: nl :: join [nl; nl] (List.map format_doc (e :: entries))).
  rewrite count_sub_before_newline.
  - rewrite Hdoc. cbn [count_sub]. rewrite Hrest. reflexivity.
  - repeat constructor.
  - discriminate.
Qed.

End SeparatorCount.

(** X22.  The marker [==DOCUMENT ] occurs once per returned document in the
    text of the tool, as long as no document text holds the marker itself. *)
Lemma langgraph_query_tool_marker_count
    (libs : StoreLibs) (w w1 : world) (query : str)
    (store : vectorstore libs) (docs : list Document) :
  load_vectorstore libs w = (Returned (Some store), w1) ->
  retriever_invoke libs store 3 query = Returned docs ->
  (forall doc, In doc docs -> contains (page_content doc) marker = false) ->
  exists out,
    fst (langgraph_query_tool libs query w) = Returned out /\
    count_sub out marker = length docs.
Proof.
  intros Hload Hdocs Hclean. eexists. split.
  - now rewrite (@langgraph_query_tool_with_store libs w w1 query store docs
                   Hload Hdocs).
  - rewrite count_sub_join_blocks; [apply length_enumerate|].
    intros [i doc] Hin. apply Hclean. unfold enumerate in Hin.
    now apply in_combine_r in Hin.
Qed.

(** [join] puts the separator before every part but the first. *)
Lemma join_concat (sep : str) (part : str) (parts : list str) :
  join sep (part :: parts)
    = part ++ concat (List.map (fun x => sep ++ x) parts).
Proof.
  revert part. induction parts as [|p parts IH]; intros part.
  - cbn. now rewrite app_nil_r.
  - change (join sep (part :: p :: parts))
      with (part ++ sep ++ join sep (p :: parts)).
    rewrite IH. cbn [List.map concat]. now rewrite <- !app_assoc.
Qed.

(** C5, read to the letter, fails: the retriever returns two documents,
    the texts of which quote separators, and the text of the tool holds four
    separators, not two. *)
Lemma langgraph_query_tool_separators_miscount :
  load_vectorstore demo_store_libs marked_world
    = (Returned (Some (index_path, marked_chunks)),
       snd (load_vectorstore demo_store_libs marked_world)) /\
  retriever_invoke demo_store_libs (index_path, marked_chunks) 3
    (lit "separators") = Returned marked_chunks /\
  length marked_chunks = 2 /\
  fst (langgraph_query_tool demo_store_libs (lit "separators") marked_world)
    = Returned (lit "==DOCUMENT 1==" ++ [nl] ++ lit "==DOCUMENT 1=="
                ++ [nl; nl]
                ++ lit "==DOCUMENT 2==" ++ [nl]
                ++ lit "see ==DOCUMENT 7== above") /\
  count_sub (lit "==DOCUMENT 1==" ++ [nl] ++ lit "==DOCUMENT 1=="
             ++ [nl; nl]
             ++ lit "==DOCUMENT 2==" ++ [nl]
             ++ lit "see ==DOCUMENT 7== above")
            (lit "==DOCUMENT ") = 4.
Proof. repeat split. Qed.

(** C5, amended.  When the store is there and the retriever, configured
    with [k = 3], answers a query with [k] documents none of whose texts
    holds [==DOCUMENT ], the text returned consists of exactly [k] blocks,
    two newlines between one and the next; for [i] from 1 to [k] the [i]-th
    block is the separator [==DOCUMENT i==], a newline, and the text of the
    [i]-th document; and [==DOCUMENT ] occurs in the text exactly [k]
    times. *)
Theorem langgraph_query_tool_separator_count
    (libs : StoreLibs) (w w1 : world) (query : str)
    (store : vectorstore libs) (docs : list Document) :
  load_vectorstore libs w = (Returned (Some store), w1) ->
  retriever_invoke libs store 3 query = Returned docs ->
  (forall doc,
     In doc docs -> contains (page_content doc) (lit "==DOCUMENT ") = false) ->
  exists (out : str) (blocks : list str),
    fst (langgraph_query_tool libs query w) = Returned out /\
    out = match blocks with
          | [] => []
          | first :: others =>
              first ++ concat (List.map (fun block => [nl; nl] ++ block) others)
          end /\
    length blocks = length docs /\
    (forall i, 1 <= i <= length docs ->
       exists doc,
         nth_error docs (i - 1) = Some doc /\
         nth_error blocks (i - 1)
           = Some (lit "==DOCUMENT " ++ str_of_nat i ++ lit "=="
                     ++ [nl] ++ page_content doc)) /\
    count_sub out (lit "==DOCUMENT ") = length docs.
Proof.
  intros Hload Hdocs Hclean.
  exists (join [nl; nl] (List.map format_doc (enumerate docs))),
         (List.map format_doc (enumerate docs)).
  split; [|split; [|split; [|split]]].
  - now rewrite (@langgraph_query_tool_with_store libs w w1 query store docs
                   Hload Hdocs).
  - destruct (List.map format_doc (enumerate docs)) as [|first others];
      [reflexivity|apply join_concat].
  - now rewrite length_map, length_enumerate.
  - intros i [Hlo Hhi].
    destruct (nth_error docs (i - 1)) as [doc|] eqn:Hdoc.
    + exists doc. split; [reflexivity|].
      rewrite nth_error_map, nth_error_enumerate, Hdoc. simpl.
      unfold separator. replace (i - 1 + 1) with i by lia.
      now rewrite <- !app_assoc.
    + apply nth_error_None in Hdoc. lia.
  - change (lit "==DOCUMENT ") with marker.
    rewrite count_sub_join_blocks; [apply length_enumerate|].
    intros [i doc] Hin. apply Hclean. unfold enumerate in Hin.
    now apply in_combine_r in Hin.
Qed.

Lemma langgraph_query_tool_separator_count_witness :
  exists (out : str) (blocks : list str),
    fst (langgraph_query_tool demo_store_libs (lit "streaming") two_chunk_world)
      = Returned out /\
    out = match blocks with
          | [] => []
          | first :: others =>
              first ++ concat (List.map (fun block => [nl; nl] ++ block) others)
          end /\
    length blocks = length two_chunks /\
    (forall i, 1 <= i <= length two_chunks ->
       exists doc,
         nth_error two_chunks (i - 1) = Some doc /\
         nth_error blocks (i - 1)
           = Some (lit "==DOCUMENT " ++ str_of_nat i ++ lit "=="
                     ++ [nl] ++ page_content doc)) /\
    count_sub out (lit "==DOCUMENT ") = length two_chunks.
Proof.
  apply (@langgraph_query_tool_separator_count demo_store_libs two_chunk_world
           (snd (load_vectorstore demo_store_libs two_chunk_world))
           (lit "streaming") (index_path, two_chunks) two_chunks).
  - reflexivity.
  - reflexivity.
  - intros doc [<-|[<-|[]]]; reflexivity.
Defined.

(** The text the tool returns in that world. *)
Example langgraph_query_tool_two_chunks :
  fst (langgraph_query_tool demo_store_libs (lit "streaming") two_chunk_world)
    = Returned (lit "==DOCUMENT 1==" ++ [nl] ++ lit "first chunk" ++ [nl; nl]
                ++ lit "==DOCUMENT 2==" ++ [nl] ++ lit "second chunk").
Proof. reflexivity. Qed.

(* ===================================================================== *)
(** * The loader of the documentation *)
(* ===================================================================== *)

Section LoaderFacts.

Variable libs : DocLibs.

(** The counting loop appends one count per document, in order, and
    stops at the first text the tokenizer refuses. *)
Lemma count_loop_spec (docs : list Document) (total : nat) (acc : list nat) :
  count_loop libs docs total acc
    = (counts <- token_counts libs docs ;;
       Returned (total + list_sum counts, acc ++ counts))%out.
Proof.
  unfold token_counts. revert total acc.
  induction docs as [|d docs IH]; intros total acc; cbn [count_loop mapM].
  - cbn. now rewrite Nat.add_0_r, app_nil_r.
  - destruct (count_tokens libs (page_content d)) as [n|e]; [|reflexivity].
    cbn [obind]. rewrite IH.
    destruct (mapM _ docs) as [counts|e]; [|reflexivity].
    cbn [obind]. change (list_sum (n :: counts)) with (n + list_sum counts).
    rewrite <- app_assoc, Nat.add_assoc. reflexivity.
Qed.

(** What a comprehension that returned holds, place by place. *)
Lemma mapM_returned {A B} (f : A -> outcome B) (l : list A) (ys : list B) :
  mapM f l = Returned ys ->
  length ys = length l /\
  forall i x, nth_error l i = Some x ->
    exists y, nth_error ys i = Some y /\ f x = Returned y.
Proof.
  revert ys. induction l as [|a l IH]; intros ys; cbn [mapM].
  - intros [= <-]. split; [reflexivity|]. intros [|i] x; discriminate.
  - destruct (f a) as [b|] eqn:Hb; [|discriminate]. cbn [obind].
    destruct (mapM f l) as [bs|]; [|discriminate]. cbn [obind].
    intros [= <-]. destruct (IH bs eq_refl) as [Hlen Hnth]. split.
    + simpl. now rewrite Hlen.
    + intros [|i] x; simpl.
      * intros [= <-]. now exists b.
      * apply Hnth.
Qed.

(** A loop that only logs returns, and leaves the files alone. *)
Lemma for_each_logs {A} (body : A -> Py unit) (l : list A) (w : world) :
  (forall x w0, exists evs, body x w0 = (Returned tt, logged w0 evs)) ->
  exists evs, for_each l body w = (Returned tt, logged w evs).
Proof.
  intros Hbody. revert w. induction l as [|x l IH]; intros w; simpl.
  - exists []. unfold ret, logged. rewrite app_nil_r. now destruct w.
  - unfold bind. destruct (Hbody x w) as [evs ->].
    destruct (IH (logged w evs)) as [evs' ->].
    exists (evs ++ evs'). now rewrite logged_logged.
Qed.

(** Every way [load_langgraph_docs] has to return: the empty result of
    the two handlers, or the documents with the counts of the loop. *)
Lemma load_langgraph_docs_returned
    (w w' : world) (docs : list Document) (tokens_per_doc : list nat) :
  load_langgraph_docs libs w = (Returned (docs, tokens_per_doc), w') ->
  token_counts libs docs = Returned tokens_per_doc.
Proof.
  unfold load_langgraph_docs, bind, try_except, logger, emit, open_read, lift.
  cbn [fs trace].
  destruct (fs w yaml_file_path) as [[content|]|].
  - destruct (safe_load libs content) as [langraph_doc|e].
    + destruct (extract_urls langraph_doc) as [urls|e]; [|discriminate].
      cbn [fs trace].
      destruct (load_categories libs urls []) as [ds|e]; [|discriminate].
      cbn [fs trace].
      match goal with
      | |- context [for_each ?l ?body ?w0] =>
          destruct (@for_each_logs _ body l w0) as [evs ->]
      end.
      { intros [i doc] w0. eexists. unfold logged. reflexivity. }
      rewrite count_loop_spec.
      destruct (token_counts libs ds) as [counts|e] eqn:Hcounts;
        [|discriminate].
      cbn [obind fs trace logged]. unfold ret.
      intros [= <- <- _]. exact Hcounts.
    + destruct e; try discriminate; unfold ret; cbn;
        intros [= <- <- _]; reflexivity.
  - discriminate.
  - unfold ret. cbn. intros [= <- <- _]. reflexivity.
Qed.

End LoaderFacts.

(** C9.  Whenever [load_langgraph_docs] returns, its two lists have the
    same length, and the count at each index is what [count_tokens] returned
    for the page content of the document at that index. *)
Theorem load_langgraph_docs_token_counts
    (libs : DocLibs) (w w' : world)
    (docs : list Document) (tokens_per_doc : list nat) :
  load_langgraph_docs libs w = (Returned (docs, tokens_per_doc), w') ->
  length tokens_per_doc = length docs /\
  forall i doc,
    nth_error docs i = Some doc ->
    exists token_count,
      nth_error tokens_per_doc i = Some token_count /\
      count_tokens libs (page_content doc) = Returned token_count.
Proof.
  intros Hret. apply load_langgraph_docs_returned in Hret.
  unfold token_counts in Hret. apply mapM_returned in Hret.
  destruct Hret as [Hlen Hnth]. split; [exact Hlen|].
  intros i doc Hi. exact (Hnth i doc Hi).
Qed.

Lemma load_langgraph_docs_token_counts_witness :
  length [30; 30] = length guides_docs /\
  forall i doc,
    nth_error guides_docs i = Some doc ->
    exists token_count,
      nth_error [30; 30] i = Some token_count /\
      count_tokens demo_doc_libs (page_content doc) = Returned token_count.
Proof.
  apply (@load_langgraph_docs_token_counts demo_doc_libs guides_world
           (snd (load_langgraph_docs demo_doc_libs guides_world))).
  reflexivity.
Defined.



(** The same on a file that is there and is not YAML. *)
Example load_langgraph_docs_unparseable :
  fst (load_langgraph_docs demo_doc_libs
         (world_of [(yaml_file_path, File (lit "langraph: [unclosed"))]))
    = Returned ([], []).
Proof. reflexivity. Qed.

(* ===================================================================== *)
(** * The URLs of the configuration *)
(* ===================================================================== *)

Section UrlFacts.

Lemma lookup_existsb (key : str) (items : list (yaml * yaml)) :
  existsb (is_str key) (List.map fst items)
    = match lookup key items with Some _ => true | None => false end.
Proof.
  induction items as [|[k v] items IH]; simpl; [reflexivity|].
  destruct (is_str key k); simpl; [reflexivity|exact IH].
Qed.

Lemma mapM_url_entries (guides us : list yaml) :
  Forall2 url_entry guides us ->
  mapM (fun guide => py_getitem guide (lit "url")) guides = Returned us.
Proof.
  induction 1 as [|g u guides us (fields & -> & Hurl) _ IH]; simpl.
  - reflexivity.
  - rewrite Hurl. simpl. rewrite IH. reflexivity.
Qed.

(** The [guides] branch collects the URL of every guide, in order. *)
Lemma guide_urls_of_category (content : yaml) (us : list yaml) :
  guides_category content us ->
  py_in (lit "guides") content = Returned true /\
  guide_urls content = Returned us.
Proof.
  intros (fields & guides & -> & Hguides & Hurls). split.
  - simpl. now rewrite lookup_existsb, Hguides.
  - unfold guide_urls. simpl. rewrite Hguides. simpl.
    now apply mapM_url_entries.
Qed.

(** On a configuration whose categories all hold guides, the loop fills
    [urls] with exactly the URLs of the guides of each category. *)
Lemma extract_urls_loop_guides
    (items : list (yaml * yaml)) (pairs urls : list (yaml * list yaml)) :
  Forall2 (fun item pair =>
             fst item = fst pair /\ guides_category (snd item) (snd pair))
          items pairs ->
  extract_urls_loop items urls = Returned (dict_of pairs urls).
Proof.
  intros H. revert urls.
  induction H as [|[category content] [category' us] items pairs [Hc Hg] _ IH];
    intros urls.
  - reflexivity.
  - simpl in Hc, Hg. subst category'.
    destruct (guide_urls_of_category Hg) as [Hin Hus].
    cbn [extract_urls_loop]. rewrite Hin. cbn [obind]. rewrite Hus.
    cbn [obind]. apply IH.
Qed.

(** The [links] branch reads [content["guides"]], which the test before it
    has just found missing. *)
Lemma link_urls_raises (content : yaml) :
  links_category content ->
  py_in (lit "guides") content = Returned false /\
  py_in (lit "links") content = Returned true /\
  link_urls content = Raised (KeyError (lit "guides")).
Proof.
  intros (fields & links & -> & Hguides & Hlinks). repeat split.
  - simpl. now rewrite lookup_existsb, Hguides.
  - simpl. now rewrite lookup_existsb, Hlinks.
  - unfold link_urls. simpl. now rewrite Hguides.
Qed.

Lemma extract_urls_loop_links
    (category content : yaml) (rest : list (yaml * yaml))
    (urls : list (yaml * list yaml)) :
  links_category content ->
  extract_urls_loop ((category, content) :: rest) urls
    = Raised (KeyError (lit "guides")).
Proof.
  intros H. destruct (link_urls_raises H) as (Hg & Hl & Hraise).
  cbn [extract_urls_loop]. rewrite Hg. cbn [obind]. rewrite Hl.
  cbn [obind]. now rewrite Hraise.
Qed.

End UrlFacts.

(** C1, on the code.  For the configuration
    [{langraph: {reference: {links: [{url: https://docs.example/api}]}}}]
    no URL list is extracted: the [links] branch raises [KeyError('guides')],
    and [load_langgraph_docs] raises with it after its first log line.  The
    URL of the link entry, which belongs in the list, is never
    read. *)
Theorem extract_urls_links_entry_raises :
  links_category
    (YDict [(YStr (lit "links"),
             YList [YDict [(YStr (lit "url"),
                            YStr (lit "https://docs.example/api"))]])]) /\
  extract_urls links_value = Raised (KeyError (lit "guides")) /\
  load_langgraph_docs demo_doc_libs links_world
    = (Raised (KeyError (lit "guides")),
       logged links_world
              [Logged INFO "Loading LangGraph documentation..." []]).
Proof.
  split; [|split].
  - do 2 eexists. repeat split; reflexivity.
  - reflexivity.
  - reflexivity.
Qed.

(** The [guides] branch collects what it should: on the configuration
    with two guides the extracted list is their two URLs. *)
Example extract_urls_guides :
  extract_urls guides_value
    = Returned [(YStr (lit "tutorials"),
                 [YStr (lit "https://docs.example/a");
                  YStr (lit "https://docs.example/b")])].
Proof. reflexivity. Qed.

(* ===================================================================== *)
(** * The chunker *)
(* ===================================================================== *)

(** [split_documents] adds nothing to the splitter of the library: when
    the splitter returns and the tokens of every chunk can be counted, it
    returns the chunks of the splitter, for the fixed size 8000 and overlap
    500, and logs their number and their tokens. *)
Lemma split_documents_returns
    (libs : DocLibs) (documents chunks : list Document) (counts : list nat)
    (w : world) :
  splitter_split_documents libs 8000 500 documents = Returned chunks ->
  token_counts libs chunks = Returned counts ->
  exists evs,
    split_documents libs documents w = (Returned chunks, logged w evs).
Proof.
  intros Hsplit Hcounts.
  unfold split_documents, bind, logger, emit, ret, lift. cbn [fs trace].
  rewrite Hsplit. cbn [fs trace]. unfold token_counts in Hcounts.
  rewrite Hcounts. cbn [fs trace].
  eexists. unfold logged. rewrite <- !app_assoc. reflexivity.
Qed.

(* ===================================================================== *)
(** * More on the extractor *)
(* ===================================================================== *)

Section NormalisationFacts.

Lemma skip_newlines_suffix (s : str) :
  exists n, s = repeat nl n ++ skip_newlines s.
Proof.
  induction s as [|c t [n Hn]]; simpl.
  - now exists 0.
  - destruct (c =? nl)%N eqn:Hc.
    + apply N.eqb_eq in Hc. subst c. exists (S n). simpl. now rewrite <- Hn.
    + now exists 0.
Qed.

Lemma skip_newlines_repeat (n : nat) (s : str) :
  skip_newlines (repeat nl n ++ s) = skip_newlines s.
Proof. induction n as [|n IH]; [reflexivity|]. simpl. exact IH. Qed.

Lemma without_newlines_repeat (n : nat) (s : str) :
  without_newlines (repeat nl n ++ s) = without_newlines s.
Proof. induction n as [|n IH]; [reflexivity|]. simpl. exact IH. Qed.

Lemma without_newlines_skip (s : str) :
  without_newlines (skip_newlines s) = without_newlines s.
Proof.
  destruct (skip_newlines_suffix s) as [n Hn].
  rewrite Hn at 2. now rewrite without_newlines_repeat.
Qed.

Lemma strip_run3b (s : str) : run3b s = false -> run3b (strip s) = false.
Proof.
  intros Hs. destruct (run3b (strip s)) eqn:Hb; [|reflexivity].
  apply run3b_spec in Hb. destruct (strip_infix s) as (p & q & Hpq).
  apply (newline_run3_infix p q) in Hb. rewrite <- Hpq in Hb.
  apply run3b_spec in Hb. congruence.
Qed.

Lemma lstrip_all_space (s : str) :
  Forall (fun c => isspace c = true) s -> lstrip s = [].
Proof. induction 1 as [|c t Hc _ IH]; simpl; [reflexivity|]. now rewrite Hc. Qed.

Lemma re_sub_blank_lines_all_space (s : str) :
  Forall (fun c => isspace c = true) s ->
  Forall (fun c => isspace c = true) (re_sub_blank_lines s).
Proof.
  funelim (re_sub_blank_lines s); simp re_sub_blank_lines; intros Hs;
    try assumption.
  - inversion Hs as [|? ? _ Hs']; subst. inversion Hs' as [|? ? _ Ht]; subst.
    repeat (constructor; [reflexivity|]).
    match goal with IH : _ -> Forall _ (re_sub_blank_lines _) |- _ => apply IH end.
    destruct (skip_newlines_suffix t) as [n Hn]. rewrite Hn in Ht.
    now apply Forall_app in Ht.
  - inversion Hs; subst. constructor; [assumption|].
    match goal with IH : _ -> Forall _ (re_sub_blank_lines _) |- _ => now apply IH end.
Qed.

Lemma skip_newlines_app (t b : str) :
  t <> [] -> ~ ends_with_newline t ->
  skip_newlines (t ++ b) = skip_newlines t ++ b.
Proof.
  induction t as [|c t IH]; intros Hne Hend; [congruence|]. simpl.
  destruct (c =? nl)%N eqn:Hc; [|reflexivity].
  apply N.eqb_eq in Hc. subst c. apply IH.
  - intros ->. apply Hend. now exists [].
  - intros [p ->]. apply Hend. now exists (nl :: p).
Qed.

Lemma skip_newlines_no_end (t : str) :
  ~ ends_with_newline t -> ~ ends_with_newline (skip_newlines t).
Proof.
  intros Hend [p Hp]. destruct (skip_newlines_suffix t) as [n Hn].
  apply Hend. exists (repeat nl n ++ p). rewrite Hn at 1. rewrite Hp.
  now rewrite app_assoc.
Qed.

(** Where a text does not end with a newline, the substitution of what
    follows starts afresh. *)
Lemma re_sub_blank_lines_app (x y : str) :
  ~ ends_with_newline x ->
  re_sub_blank_lines (x ++ y) = re_sub_blank_lines x ++ re_sub_blank_lines y.
Proof.
  funelim (re_sub_blank_lines x); intros Hend.
  - reflexivity.
  - assert (Hc : (c =? nl)%N = false).
    { apply N.eqb_neq. intros ->. apply Hend. now exists []. }
    destruct y as [|y0 y]; simp re_sub_blank_lines; [reflexivity|].
    cbn [app]. simp re_sub_blank_lines. rewrite Hc. reflexivity.
  - cbn [app]. simp re_sub_blank_lines. rewrite Heq. cbn.
    assert (Ht : ~ ends_with_newline t).
    { intros [p ->]. apply Hend. now exists (a :: b :: p). }
    assert (Hne : t <> []).
    { intros ->. apply andb_true_iff in Heq. destruct Heq as [_ Hb].
      apply N.eqb_eq in Hb. subst b. apply Hend. now exists [a]. }
    rewrite (skip_newlines_app y Hne Ht).
    match goal with IH : forall _, _ -> _ = _ |- _ => rewrite IH end;
      [reflexivity|]. now apply skip_newlines_no_end.
  - cbn [app]. simp re_sub_blank_lines. rewrite Heq. cbn.
    change (b :: t ++ y) with ((b :: t) ++ y).
    match goal with IH : forall _, _ -> _ = _ |- _ => rewrite IH end;
      [reflexivity|].
    intros [p Hp]. apply Hend. exists (a :: p). now rewrite Hp.
Qed.

End NormalisationFacts.

(** X1.  When the page has an [article] node of class [md-content__inner],
    only the text of that node is returned, normalised; the rest of the page
    is left out.  A node text that needs no normalisation comes back as it
    is. *)
Theorem bs4_extractor_matched (lib : Bs4) (html : str) (node : tag lib) :
  main_content lib (BeautifulSoup lib html) = Some node ->
  bs4_extractor lib html = strip (re_sub_blank_lines (get_text lib node)) /\
  (~ leading_whitespace (get_text lib node) ->
   ~ trailing_whitespace (get_text lib node) ->
   ~ newline_run3 (get_text lib node) ->
   bs4_extractor lib html = get_text lib node).
Proof.
  intros Hnode. unfold bs4_extractor, selected_content. rewrite Hnode.
  split; [reflexivity|]. intros Hl Ht Hr.
  rewrite re_sub_blank_lines_fixed; [now apply strip_fixed|].
  destruct (run3b _) eqn:Hb; [|reflexivity].
  exfalso. apply Hr. now apply run3b_spec.
Qed.

Lemma bs4_extractor_matched_witness :
  bs4_extractor demo_pages article_page
    = strip (re_sub_blank_lines (get_text demo_pages article_node)) /\
  (~ leading_whitespace (get_text demo_pages article_node) ->
   ~ trailing_whitespace (get_text demo_pages article_node) ->
   ~ newline_run3 (get_text demo_pages article_node) ->
   bs4_extractor demo_pages article_page = get_text demo_pages article_node).
Proof.
  apply (@bs4_extractor_matched demo_pages article_page article_node).
  reflexivity.
Defined.

(** X2.  The text [bs4_extractor] returns is a fixed point of its own
    normalisation: collapsing blank lines and stripping it again changes
    nothing. *)
Theorem bs4_extractor_fixed_point (lib : Bs4) (html : str) :
  strip (re_sub_blank_lines (bs4_extractor lib html)) = bs4_extractor lib html.
Proof.
  unfold bs4_extractor.
  set (content := selected_content lib (BeautifulSoup lib html)).
  rewrite re_sub_blank_lines_fixed.
  - apply strip_fixed; [apply strip_no_leading|apply strip_no_trailing].
  - apply strip_run3b, re_sub_blank_lines_run3b.
Qed.

(** X3.  A page whose selected text is empty or holds only whitespace is
    extracted as the empty string. *)
Theorem bs4_extractor_blank (lib : Bs4) (html : str) :
  Forall (fun c => isspace c = true)
         (selected_content lib (BeautifulSoup lib html)) ->
  bs4_extractor lib html = [].
Proof.
  intros Hblank. unfold bs4_extractor, strip.
  rewrite (lstrip_all_space (re_sub_blank_lines_all_space Hblank)).
  reflexivity.
Qed.

Lemma bs4_extractor_blank_witness :
  Forall (fun c => isspace c = true)
         (selected_content demo_pages (BeautifulSoup demo_pages blank_page)) /\
  bs4_extractor demo_pages blank_page = [].
Proof.
  assert (H : Forall (fun c => isspace c = true)
                (selected_content demo_pages (BeautifulSoup demo_pages blank_page))).
  { repeat constructor. }
  split; [exact H|]. exact (bs4_extractor_blank demo_pages blank_page H).
Defined.

(** X4.  The substitution of line 23 touches newlines only and never makes
    a text longer: without their newlines, the text before and the text
    after are the same. *)
Theorem re_sub_blank_lines_newlines_only (s : str) :
  without_newlines (re_sub_blank_lines s) = without_newlines s /\
  length (re_sub_blank_lines s) <= length s.
Proof.
  split.
  - funelim (re_sub_blank_lines s); simp re_sub_blank_lines;
      try reflexivity.
    + apply andb_true_iff in Heq. destruct Heq as [Ha Hb].
      apply N.eqb_eq in Ha, Hb. subst a b.
      change (without_newlines (nl :: nl :: ?u)) with (without_newlines u).
      match goal with IH : without_newlines _ = _ |- _ => rewrite IH end.
      apply without_newlines_skip.
    + unfold without_newlines in *. cbn [filter].
      match goal with IH : filter _ _ = _ |- _ => rewrite IH end.
      reflexivity.
  - funelim (re_sub_blank_lines s); simp re_sub_blank_lines;
      try (cbn [length]; lia).
    + destruct (skip_newlines_suffix t) as [n Hn].
      apply (f_equal (@length char)) in Hn.
      rewrite length_app, repeat_length in Hn. cbn [length]. lia.
    + cbn [length] in *. lia.
Qed.

(** X5.  A run of two or more newlines between a text that does not end
    with a newline and a text that does not start with one becomes exactly
    two newlines, and the texts on both sides are treated on their own. *)
Theorem re_sub_blank_lines_run (x y : str) (n : nat) :
  ~ ends_with_newline x ->
  ~ starts_with_newline y ->
  2 <= n ->
  re_sub_blank_lines (x ++ repeat nl n ++ y)
    = re_sub_blank_lines x ++ [nl; nl] ++ re_sub_blank_lines y.
Proof.
  intros Hx Hy Hn. rewrite (re_sub_blank_lines_app _ Hx). f_equal.
  destruct n as [|[|n]]; try lia.
  cbn [repeat app]. simp re_sub_blank_lines. cbn.
  rewrite skip_newlines_repeat, skip_newlines_fixed; [reflexivity|].
  destruct y as [|c y]; [exact I|].
  apply N.eqb_neq. intros ->. apply Hy. now exists y.
Qed.

Lemma re_sub_blank_lines_run_witness :
  re_sub_blank_lines (lit "intro" ++ repeat nl 4 ++ lit "body")
    = re_sub_blank_lines (lit "intro") ++ [nl; nl]
      ++ re_sub_blank_lines (lit "body").
Proof.
  apply (@re_sub_blank_lines_run (lit "intro") (lit "body") 4).
  - intros [p Hp]. apply (f_equal (@rev char)) in Hp.
    rewrite rev_app_distr in Hp. discriminate.
  - intros [t Ht]. discriminate.
  - lia.
Defined.

(* ===================================================================== *)
(** * More on the URLs of the configuration *)
(* ===================================================================== *)

Section MoreUrlFacts.

Lemma dict_set_fresh {V} (d : list (yaml * V)) (key : yaml) (value : V) :
  (forall a, In a d -> key_eqb (fst a) key = false) ->
  dict_set d key value = d ++ [(key, value)].
Proof.
  induction d as [|[k v] d IH]; intros Hfresh; simpl; [reflexivity|].
  pose proof (Hfresh (k, v) (or_introl eq_refl)) as Hk. cbn [fst] in Hk.
  rewrite Hk. rewrite IH; [reflexivity|].
  intros a Ha. apply Hfresh. now right.
Qed.

Lemma dict_of_fresh (pairs urls : list (yaml * list yaml)) :
  distinct_keys pairs ->
  (forall a q, In a urls -> In q pairs -> key_eqb (fst a) (fst q) = false) ->
  dict_of pairs urls = urls ++ pairs.
Proof.
  intros Hd. revert urls.
  induction Hd as [|p pairs Hp _ IH]; intros urls Hfresh; simpl.
  - now rewrite app_nil_r.
  - unfold dict_of in *. cbn [fold_left]. rewrite dict_set_fresh.
    + rewrite IH.
      * destruct p. now rewrite <- app_assoc.
      * intros a q Ha Hq. apply in_app_or in Ha. destruct Ha as [Ha|[<-|[]]].
        -- apply Hfresh; [exact Ha|now right].
        -- cbn [fst]. rewrite Forall_forall in Hp. now apply Hp.
    + intros a Ha. apply Hfresh; [exact Ha|now left].
Qed.

(** The categories that hold guides are gone through one after the other;
    the loop goes on with their URLs in [urls]. *)
Lemma extract_urls_loop_after_guides
    (pre rest : list (yaml * yaml)) (pairs urls : list (yaml * list yaml)) :
  Forall2 (fun item pair =>
             fst item = fst pair /\ guides_category (snd item) (snd pair))
          pre pairs ->
  extract_urls_loop (pre ++ rest) urls
    = extract_urls_loop rest (dict_of pairs urls).
Proof.
  intros H. revert urls.
  induction H as [|[category content] [category' us] pre pairs [Hc Hg] _ IH];
    intros urls.
  - reflexivity.
  - simpl in Hc, Hg. subst category'.
    destruct (guide_urls_of_category Hg) as [Hin Hus].
    cbn [app extract_urls_loop]. rewrite Hin. cbn [obind]. rewrite Hus.
    cbn [obind]. apply IH.
Qed.

Lemma extract_urls_of_config (top items : list (yaml * yaml)) :
  lookup (lit "langraph") top = Some (YDict items) ->
  extract_urls (YDict top) = extract_urls_loop items [].
Proof. intros H. unfold extract_urls, py_get. rewrite H. reflexivity. Qed.

Lemma mapM_stops {A B} (f : A -> outcome B) (pre post : list A) (x : A)
    (ys : list B) (e : exn) :
  mapM f pre = Returned ys -> f x = Raised e ->
  mapM f (pre ++ x :: post) = Raised e.
Proof.
  revert ys. induction pre as [|a pre IH]; intros ys Hpre Hx; simpl.
  - now rewrite Hx.
  - simpl in Hpre. destruct (f a); [|discriminate]. cbn in *.
    destruct (mapM f pre) eqn:Hm; [|discriminate].
    now rewrite (IH _ eq_refl Hx).
Qed.

End MoreUrlFacts.

(** X6.  For a configuration whose categories all hold guides, each of
    them a mapping with a [url], and whose category keys differ, [urls]
    holds exactly the URLs of the guides of every category, in the order of
    the file.  A [links] entry beside the guides is not looked at. *)
Theorem extract_urls_guides_config
    (top items : list (yaml * yaml)) (pairs : list (yaml * list yaml)) :
  lookup (lit "langraph") top = Some (YDict items) ->
  Forall2 (fun item pair =>
             fst item = fst pair /\ guides_category (snd item) (snd pair))
          items pairs ->
  distinct_keys pairs ->
  extract_urls (YDict top) = Returned pairs.
Proof.
  intros Htop Hitems Hkeys. rewrite (extract_urls_of_config _ Htop).
  rewrite <- (app_nil_r items).
  rewrite (extract_urls_loop_after_guides [] [] Hitems). cbn.
  rewrite dict_of_fresh; [reflexivity|exact Hkeys|]. intros a q [].
Qed.

Lemma extract_urls_guides_config_witness :
  extract_urls (config [tutorials; concepts])
    = Returned [(YStr (lit "tutorials"),
                 [YStr (lit "https://docs.example/a");
                  YStr (lit "https://docs.example/b")]);
                (YStr (lit "concepts"), [YStr (lit "https://docs.example/c")])].
Proof.
  apply (@extract_urls_guides_config _ [tutorials; concepts]).
  - reflexivity.
  - repeat constructor; cbn [fst snd];
      do 2 eexists; (split; [reflexivity|split; [reflexivity|]]);
      repeat constructor; eexists; split; reflexivity.
  - repeat constructor.
Defined.

(** X7.  A category that is a mapping with neither [guides] nor [links]
    adds nothing: with or without it the loop ends in the same way, with
    the same URLs or the same exception. *)
Theorem extract_urls_loop_plain_category
    (pre post : list (yaml * yaml)) (category content : yaml)
    (urls : list (yaml * list yaml)) :
  plain_category content ->
  extract_urls_loop (pre ++ (category, content) :: post) urls
    = extract_urls_loop (pre ++ post) urls.
Proof.
  intros (fields & -> & Hguides & Hlinks). revert urls.
  induction pre as [|[c x] pre IH]; intros urls.
  - cbn [app extract_urls_loop py_in obind].
    rewrite !lookup_existsb, Hguides, Hlinks. reflexivity.
  - cbn [app extract_urls_loop].
    destruct (py_in (lit "guides") x) as [[|]|]; cbn [obind];
      [destruct (guide_urls x); cbn [obind]; [apply IH|reflexivity]
      | |reflexivity].
    destruct (py_in (lit "links") x) as [[|]|]; cbn [obind];
      [destruct (link_urls x); cbn [obind]; [apply IH|reflexivity]
      |apply IH|reflexivity].
Qed.

Lemma extract_urls_loop_plain_category_witness :
  extract_urls_loop ([tutorials] ++ about :: [concepts]) []
    = extract_urls_loop ([tutorials] ++ [concepts]) [].
Proof.
  apply (@extract_urls_loop_plain_category [tutorials] [concepts]
           (fst about) (snd about)).
  eexists. repeat split; reflexivity.
Defined.

(** X8.  The first category that has [links] and no [guides] ends the
    extraction with [KeyError('guides')], whatever comes after it and
    whatever guides were collected before it. *)
Theorem extract_urls_links_category
    (top pre rest : list (yaml * yaml)) (pairs : list (yaml * list yaml))
    (category content : yaml) :
  lookup (lit "langraph") top
    = Some (YDict (pre ++ (category, content) :: rest)) ->
  Forall2 (fun item pair =>
             fst item = fst pair /\ guides_category (snd item) (snd pair))
          pre pairs ->
  links_category content ->
  extract_urls (YDict top) = Raised (KeyError (lit "guides")).
Proof.
  intros Htop Hpre Hlinks. rewrite (extract_urls_of_config _ Htop).
  rewrite (extract_urls_loop_after_guides _ _ Hpre).
  now apply extract_urls_loop_links.
Qed.

Lemma extract_urls_links_category_witness :
  extract_urls (config ([tutorials] ++ reference :: [concepts]))
    = Raised (KeyError (lit "guides")).
Proof.
  apply (@extract_urls_links_category _ [tutorials] [concepts]
           [(YStr (lit "tutorials"),
             [YStr (lit "https://docs.example/a");
              YStr (lit "https://docs.example/b")])]
           (fst reference) (snd reference)).
  - reflexivity.
  - repeat constructor; cbn [fst snd].
    do 2 eexists. split; [reflexivity|split; [reflexivity|]].
    repeat constructor; eexists; split; reflexivity.
  - do 2 eexists. repeat split; reflexivity.
Defined.

(** X9.  A guide without [url] ends the extraction with [KeyError('url')]:
    one incomplete guide loses the URLs of the whole configuration. *)
Theorem extract_urls_guide_without_url
    (top pre rest fields : list (yaml * yaml)) (pairs : list (yaml * list yaml))
    (category guide : yaml) (before after us : list yaml) :
  lookup (lit "langraph") top
    = Some (YDict (pre ++ (category, YDict fields) :: rest)) ->
  Forall2 (fun item pair =>
             fst item = fst pair /\ guides_category (snd item) (snd pair))
          pre pairs ->
  lookup (lit "guides") fields = Some (YList (before ++ guide :: after)) ->
  Forall2 url_entry before us ->
  guide_without_url guide ->
  extract_urls (YDict top) = Raised (KeyError (lit "url")).
Proof.
  intros Htop Hpre Hguides Hbefore (gfields & -> & Hurl).
  rewrite (extract_urls_of_config _ Htop).
  rewrite (extract_urls_loop_after_guides _ _ Hpre).
  cbn [extract_urls_loop py_in]. rewrite lookup_existsb, Hguides.
  cbn [obind]. unfold guide_urls. cbn [py_getitem]. rewrite Hguides.
  cbn [obind py_iter].
  rewrite (@mapM_stops _ _ _ before after (YDict gfields) us
             (KeyError (lit "url")) (mapM_url_entries Hbefore));
    [reflexivity|].
  unfold py_getitem. now rewrite Hurl.
Qed.

Lemma extract_urls_guide_without_url_witness :
  extract_urls (config ([tutorials] ++ howtos :: [concepts]))
    = Raised (KeyError (lit "url")).
Proof.
  apply (@extract_urls_guide_without_url _ [tutorials] [concepts]
           [(YStr (lit "guides"),
             YList [url "https://docs.example/h"; untitled_guide])]
           [(YStr (lit "tutorials"),
             [YStr (lit "https://docs.example/a");
              YStr (lit "https://docs.example/b")])]
           (fst howtos) untitled_guide [url "https://docs.example/h"] []
           [YStr (lit "https://docs.example/h")]).
  - reflexivity.
  - repeat constructor; cbn [fst snd].
    do 2 eexists. split; [reflexivity|split; [reflexivity|]].
    repeat constructor; eexists; split; reflexivity.
  - reflexivity.
  - repeat constructor. eexists; split; reflexivity.
  - eexists. split; reflexivity.
Defined.

(** X10.  A category whose value is empty, a truth value or a number ends
    the extraction with a [TypeError]: the test ["guides" in content] needs
    a container. *)
Theorem extract_urls_scalar_category
    (top pre rest : list (yaml * yaml)) (pairs : list (yaml * list yaml))
    (category content : yaml) :
  lookup (lit "langraph") top
    = Some (YDict (pre ++ (category, content) :: rest)) ->
  Forall2 (fun item pair =>
             fst item = fst pair /\ guides_category (snd item) (snd pair))
          pre pairs ->
  scalar content ->
  extract_urls (YDict top) = Raised (TypeError "argument is not iterable").
Proof.
  intros Htop Hpre Hscalar. rewrite (extract_urls_of_config _ Htop).
  rewrite (extract_urls_loop_after_guides _ _ Hpre).
  destruct content; try contradiction; reflexivity.
Qed.

Lemma extract_urls_scalar_category_witness :
  extract_urls (config ([tutorials] ++ (YStr (lit "drafts"), YNone) :: []))
    = Raised (TypeError "argument is not iterable").
Proof.
  apply (@extract_urls_scalar_category _ [tutorials] []
           [(YStr (lit "tutorials"),
             [YStr (lit "https://docs.example/a");
              YStr (lit "https://docs.example/b")])]
           (YStr (lit "drafts")) YNone).
  - reflexivity.
  - repeat constructor; cbn [fst snd].
    do 2 eexists. split; [reflexivity|split; [reflexivity|]].
    repeat constructor; eexists; split; reflexivity.
  - exact I.
Defined.

(* ===================================================================== *)
(** * More on the loader *)
(* ===================================================================== *)

Section MoreLoaderFacts.

Variable libs : DocLibs.

Lemma mapM_app {A B} (f : A -> outcome B) (l1 l2 : list A) :
  mapM f (l1 ++ l2)
    = (ys1 <- mapM f l1 ;; ys2 <- mapM f l2 ;; Returned (ys1 ++ ys2))%out.
Proof.
  induction l1 as [|x l1 IH]; simpl.
  - destruct (mapM f l2); reflexivity.
  - destruct (f x); [|reflexivity]. cbn [obind]. rewrite IH.
    destruct (mapM f l1); [|reflexivity]. cbn [obind].
    destruct (mapM f l2); reflexivity.
Qed.

Lemma load_url_list_spec (url_list : list yaml) (docs : list Document) :
  load_url_list libs url_list docs
    = (dss <- mapM (crawl libs) url_list ;; Returned (docs ++ concat dss))%out.
Proof.
  revert docs. induction url_list as [|u url_list IH]; intros docs; simpl.
  - now rewrite app_nil_r.
  - unfold crawl at 1. destruct (lazy_load libs u 5 _) as [ds|e];
      [|reflexivity]. cbn [obind]. rewrite IH.
    destruct (mapM (crawl libs) url_list); [|reflexivity].
    cbn [obind concat]. now rewrite app_assoc.
Qed.

(** The loop that only logs, with the records it leaves. *)
Lemma for_each_trace {A} (body : A -> Py unit) (line : A -> event)
    (l : list A) (w : world) :
  (forall x w0, body x w0 = (Returned tt, logged w0 [line x])) ->
  for_each l body w = (Returned tt, logged w (List.map line l)).
Proof.
  intros Hbody. revert w. induction l as [|x l IH]; intros w; simpl.
  - unfold ret, logged. rewrite app_nil_r. now destruct w.
  - unfold bind. rewrite Hbody, IH. now rewrite logged_logged.
Qed.

(** The [try] block, as one step. *)
Lemma try_block (w : world) :
  bind (open_read yaml_file_path) (fun file => lift (safe_load libs file)) w
    = (read_configuration libs w, w).
Proof.
  unfold bind, open_read, lift, read_configuration.
  destruct (fs w yaml_file_path) as [[content|]|]; reflexivity.
Qed.

End MoreLoaderFacts.

(** X11.  The crawl goes through the categories in order and, inside a
    category, through its URLs in order, each with depth five and
    [bs4_extractor]; the documents are appended in that order, and the first
    exception of a loader ends the crawl. *)
Theorem load_categories_in_order
    (libs : DocLibs) (urls : list (yaml * list yaml)) (docs : list Document) :
  load_categories libs urls docs
    = (dss <- mapM (crawl libs) (concat (List.map snd urls)) ;;
       Returned (docs ++ concat dss))%out.
Proof.
  revert docs. induction urls as [|[category url_list] urls IH]; intros docs.
  - simpl. now rewrite app_nil_r.
  - cbn [load_categories List.map concat snd]. rewrite load_url_list_spec.
    rewrite mapM_app.
    destruct (mapM (crawl libs) url_list) as [dss1|e]; [|reflexivity].
    cbn [obind]. rewrite IH.
    destruct (mapM (crawl libs) (concat (List.map snd urls))) as [dss2|e];
      [|reflexivity].
    cbn [obind]. now rewrite concat_app, app_assoc.
Qed.

Section LoaderPaths.

Variable libs : DocLibs.

(** The function after its [try] block, on a parsed configuration. *)
Lemma load_langgraph_docs_parsed (w : world) (doc : yaml) :
  read_configuration libs w = Returned doc ->
  load_langgraph_docs libs w =
    match extract_urls doc with
    | Raised e =>
        (Raised e, logged w [Logged INFO "Loading LangGraph documentation..." []])
    | Returned urls =>
        match load_categories libs urls [] with
        | Raised e =>
            (Raised e,
             logged w [Logged INFO "Loading LangGraph documentation..." [];
                       Logged INFO "Extracted URLs: {}" [AUrls urls]])
        | Returned docs =>
            match token_counts libs docs with
            | Raised e =>
                (Raised e,
                 logged w
                   ([Logged INFO "Loading LangGraph documentation..." [];
                     Logged INFO "Extracted URLs: {}" [AUrls urls];
                     Logged INFO "Loaded {} documents from LangGraph documentation."
                            [ANat (length docs)];
                     Logged INFO "Loaded URLs:" []]
                    ++ List.map loaded_url_line (enumerate docs)))
            | Returned counts =>
                (Returned (docs, counts),
                 logged w
                   ([Logged INFO "Loading LangGraph documentation..." [];
                     Logged INFO "Extracted URLs: {}" [AUrls urls];
                     Logged INFO "Loaded {} documents from LangGraph documentation."
                            [ANat (length docs)];
                     Logged INFO "Loaded URLs:" []]
                    ++ List.map loaded_url_line (enumerate docs)
                    ++ [Logged INFO "Total tokens in loaded documents: {}"
                               [ANat (list_sum counts)]]))
            end
        end
    end.
Proof.
  intros Hread. unfold load_langgraph_docs.
  unfold bind at 1. unfold logger at 1, emit at 1.
  unfold try_except. rewrite try_block.
  change (read_configuration libs _) with (read_configuration libs w).
  rewrite Hread. unfold bind at 1, lift at 1.
  destruct (extract_urls doc) as [urls|e]; [|reflexivity].
  unfold bind at 1, logger at 1, emit at 1. cbn [fs trace].
  unfold bind at 1, lift at 1.
  destruct (load_categories libs urls []) as [docs|e].
  2:{ unfold logged. now rewrite <- app_assoc. }
  unfold bind at 1, logger at 1, emit at 1. cbn [fs trace].
  unfold bind at 1, logger at 1, emit at 1. cbn [fs trace].
  unfold bind at 1.
  rewrite (@for_each_trace _ _ loaded_url_line).
  2:{ intros [i d] w0. reflexivity. }
  unfold bind at 1, lift at 1. rewrite count_loop_spec.
  destruct (token_counts libs docs) as [counts|e]; cbn [obind].
  - unfold bind, logger, emit, ret, logged. cbn [fs trace].
    do 2 f_equal. rewrite <- !app_assoc. reflexivity.
  - unfold logged. cbn [fs trace]. do 2 f_equal.
    rewrite <- !app_assoc. reflexivity.
Qed.

End LoaderPaths.

(** X12.  When the configuration is read, its URLs are extracted, every
    crawl succeeds and the tokens of every document can be counted,
    [load_langgraph_docs] returns the crawled documents in order with their
    token counts, leaves the files as they were, and logs, in this order:
    the start, the URLs, the number of documents, one numbered line per
    document with its [source] (or [Unknown URL]), and a total that is the
    sum of the counts it returns.  When the tokenizer refuses a document,
    its exception is raised instead, after the numbered lines. *)
Theorem load_langgraph_docs_loaded
    (libs : DocLibs) (w : world) (doc : yaml)
    (urls : list (yaml * list yaml)) (docs : list Document) :
  read_configuration libs w = Returned doc ->
  extract_urls doc = Returned urls ->
  load_categories libs urls [] = Returned docs ->
  (forall counts,
     token_counts libs docs = Returned counts ->
     load_langgraph_docs libs w =
       (Returned (docs, counts),
        logged w
          ([Logged INFO "Loading LangGraph documentation..." [];
            Logged INFO "Extracted URLs: {}" [AUrls urls];
            Logged INFO "Loaded {} documents from LangGraph documentation."
                   [ANat (length docs)];
            Logged INFO "Loaded URLs:" []]
           ++ List.map loaded_url_line (enumerate docs)
           ++ [Logged INFO "Total tokens in loaded documents: {}"
                      [ANat (list_sum counts)]]))) /\
  (forall e,
     token_counts libs docs = Raised e ->
     load_langgraph_docs libs w =
       (Raised e,
        logged w
          ([Logged INFO "Loading LangGraph documentation..." [];
            Logged INFO "Extracted URLs: {}" [AUrls urls];
            Logged INFO "Loaded {} documents from LangGraph documentation."
                   [ANat (length docs)];
            Logged INFO "Loaded URLs:" []]
           ++ List.map loaded_url_line (enumerate docs)))).
Proof.
  intros Hread Hurls Hdocs.
  rewrite (load_langgraph_docs_parsed _ _ Hread), Hurls, Hdocs.
  split; intros x Hx; rewrite Hx; reflexivity.
Qed.

Lemma load_langgraph_docs_loaded_witness :
  load_langgraph_docs demo_doc_libs guides_world =
    (Returned (guides_docs, [30; 30]),
     logged guides_world
       ([Logged INFO "Loading LangGraph documentation..." [];
         Logged INFO "Extracted URLs: {}"
                [AUrls [(YStr (lit "tutorials"),
                         [YStr (lit "https://docs.example/a");
                          YStr (lit "https://docs.example/b")])]];
         Logged INFO "Loaded {} documents from LangGraph documentation."
                [ANat (length guides_docs)];
         Logged INFO "Loaded URLs:" []]
        ++ List.map loaded_url_line (enumerate guides_docs)
        ++ [Logged INFO "Total tokens in loaded documents: {}"
                   [ANat (list_sum [30; 30])]])).
Proof.
  destruct (@load_langgraph_docs_loaded demo_doc_libs guides_world guides_value
              _ guides_docs eq_refl eq_refl eq_refl) as [Hreturned _].
  apply Hreturned. reflexivity.
Defined.

(** The tokenizer of the second instance refuses a text that holds the
    special token: the loader raises after its numbered lines. *)
Example load_langgraph_docs_special_token :
  fst (load_langgraph_docs strict_doc_libs guides_world)
    = Raised (LibraryError (lit "disallowed special token")).
Proof. reflexivity. Qed.

(** X13.  An exception of a crawl is not handled: [load_langgraph_docs]
    raises it, after it has logged the start and the URLs, and returns no
    document at all. *)
Theorem load_langgraph_docs_crawl_error
    (libs : DocLibs) (w : world) (doc : yaml)
    (urls : list (yaml * list yaml)) (e : exn) :
  read_configuration libs w = Returned doc ->
  extract_urls doc = Returned urls ->
  load_categories libs urls [] = Raised e ->
  load_langgraph_docs libs w =
    (Raised e,
     logged w [Logged INFO "Loading LangGraph documentation..." [];
               Logged INFO "Extracted URLs: {}" [AUrls urls]]).
Proof.
  intros Hread Hurls Hdocs.
  rewrite (load_langgraph_docs_parsed _ _ Hread), Hurls, Hdocs. reflexivity.
Qed.

Lemma load_langgraph_docs_crawl_error_witness :
  load_langgraph_docs case_doc_libs
      (config_world (lit "{langraph: {numbered: {guides: [{url: 5}]}}}")) =
    (Raised (TypeError "expected a string"),
     logged (config_world (lit "{langraph: {numbered: {guides: [{url: 5}]}}}"))
            [Logged INFO "Loading LangGraph documentation..." [];
             Logged INFO "Extracted URLs: {}"
                    [AUrls [(YStr (lit "numbered"), [YInt 5])]]]).
Proof.
  apply (@load_langgraph_docs_crawl_error case_doc_libs _ (config [numbered]));
    reflexivity.
Defined.

(** X14.  A configuration file that does not hold a mapping, an empty file
    for one, makes [load_langgraph_docs] raise an [AttributeError]; so does
    a [langraph] entry that is not a mapping.  Neither is handled, and
    nothing is logged but the start. *)
Theorem load_langgraph_docs_not_a_mapping
    (libs : DocLibs) (w : world) (doc : yaml) :
  read_configuration libs w = Returned doc ->
  not_a_mapping doc \/
  (exists top section,
     doc = YDict top /\ lookup (lit "langraph") top = Some section /\
     not_a_mapping section) ->
  exists message,
    load_langgraph_docs libs w =
      (Raised (AttributeError message),
       logged w [Logged INFO "Loading LangGraph documentation..." []]).
Proof.
  intros Hread Hshape. rewrite (load_langgraph_docs_parsed _ _ Hread).
  destruct Hshape as [Hdoc | (top & section & -> & Hsection & Hnot)].
  - destruct doc; try (eexists; reflexivity). now destruct (Hdoc items).
  - unfold extract_urls, py_get. rewrite Hsection. cbn [obind].
    destruct section; try (eexists; reflexivity). now destruct (Hnot items).
Qed.

Lemma load_langgraph_docs_not_a_mapping_witness :
  exists message,
    load_langgraph_docs case_doc_libs (config_world []) =
      (Raised (AttributeError message),
       logged (config_world [])
              [Logged INFO "Loading LangGraph documentation..." []]).
Proof.
  apply (@load_langgraph_docs_not_a_mapping case_doc_libs (config_world [])
           YNone).
  - reflexivity.
  - left. intros items. discriminate.
Defined.

(** X15.  A configuration that is a mapping without the [langraph] key is
    taken as one without categories: nothing is crawled, the result is
    empty, and the log tells of no URL, no document and no token. *)
Theorem load_langgraph_docs_without_langraph_key
    (libs : DocLibs) (w : world) (top : list (yaml * yaml)) :
  read_configuration libs w = Returned (YDict top) ->
  lookup (lit "langraph") top = None ->
  load_langgraph_docs libs w =
    (Returned ([], []),
     logged w [Logged INFO "Loading LangGraph documentation..." [];
               Logged INFO "Extracted URLs: {}" [AUrls []];
               Logged INFO "Loaded {} documents from LangGraph documentation."
                      [ANat 0];
               Logged INFO "Loaded URLs:" [];
               Logged INFO "Total tokens in loaded documents: {}" [ANat 0]]).
Proof.
  intros Hread Hkey. rewrite (load_langgraph_docs_parsed _ _ Hread).
  unfold extract_urls, py_get. rewrite Hkey. reflexivity.
Qed.

Lemma load_langgraph_docs_without_langraph_key_witness :
  load_langgraph_docs case_doc_libs (config_world (lit "version: 1")) =
    (Returned ([], []),
     logged (config_world (lit "version: 1"))
            [Logged INFO "Loading LangGraph documentation..." [];
             Logged INFO "Extracted URLs: {}" [AUrls []];
             Logged INFO "Loaded {} documents from LangGraph documentation."
                    [ANat 0];
             Logged INFO "Loaded URLs:" [];
             Logged INFO "Total tokens in loaded documents: {}" [ANat 0]]).
Proof.
  apply (@load_langgraph_docs_without_langraph_key case_doc_libs
           (config_world (lit "version: 1"))
           [(YStr (lit "version"), YInt 1)]); reflexivity.
Defined.

(** X16.  Only a missing file and a [YAMLError] are handled.  Any other
    exception of [open] or of [yaml.safe_load], a directory in place of the
    file for one, is raised to the caller, and no error is logged. *)
Theorem load_langgraph_docs_unhandled
    (libs : DocLibs) (w : world) (e : exn) :
  read_configuration libs w = Raised e ->
  (forall path, e <> FileNotFoundError path) ->
  (forall problem, e <> YAMLError problem) ->
  load_langgraph_docs libs w =
    (Raised e, logged w [Logged INFO "Loading LangGraph documentation..." []]).
Proof.
  intros Hread Hfile Hyaml. unfold load_langgraph_docs.
  unfold bind at 1. unfold logger at 1, emit at 1.
  unfold try_except. rewrite try_block.
  change (read_configuration libs _) with (read_configuration libs w).
  rewrite Hread.
  destruct e; try reflexivity; [now destruct (Hfile path)|now destruct (Hyaml problem)].
Qed.

Lemma load_langgraph_docs_unhandled_witness :
  load_langgraph_docs demo_doc_libs (world_of [(yaml_file_path, Directory)]) =
    (Raised (IsADirectoryError yaml_file_path),
     logged (world_of [(yaml_file_path, Directory)])
            [Logged INFO "Loading LangGraph documentation..." []]).
Proof.
  apply (@load_langgraph_docs_unhandled demo_doc_libs
           (world_of [(yaml_file_path, Directory)])
           (IsADirectoryError yaml_file_path)).
  - reflexivity.
  - discriminate.
  - discriminate.
Defined.

(* ===================================================================== *)
(** * More on the vector store and the query tool *)
(* ===================================================================== *)





(** With the store of the examples the chunks come back as they were
    written. *)
Example create_then_load_two_chunks :
  fst (load_vectorstore demo_store_libs
         (snd (create_vectorstore demo_store_libs two_chunks (world_of []))))
    = Returned (Some (index_path, two_chunks)).
Proof. reflexivity. Qed.

(** X19.  An index file that is there and cannot be loaded is, for the
    tool, like no index: [load_vectorstore] logs the error and returns
    [None], and the tool raises the [AttributeError] of [None], not the
    exception of the store. *)
Theorem langgraph_query_tool_unloadable_index
    (libs : StoreLibs) (w : world) (query : str) (e : exn) :
  fs w (PERSIST_PATH libs) <> None ->
  store_construction libs (fs w) = Raised e ->
  langgraph_query_tool libs query w =
    (Raised (AttributeError "'NoneType' object has no attribute 'as_retriever'"),
     logged w [Logged INFO "Loading existing SKLearnVectorStore from %s"
                      [AStr (PERSIST_PATH libs)];
               Logged ERROR "Error loading vector store: %s" [AExn e]]).
Proof.
  intros Hsome Hraise. unfold langgraph_query_tool, bind.
  rewrite load_vectorstore_cases.
  destruct (fs w (PERSIST_PATH libs)); [|congruence].
  rewrite Hraise. reflexivity.
Qed.

Lemma langgraph_query_tool_unloadable_index_witness :
  langgraph_query_tool demo_store_libs (lit "checkpoints")
      (world_of [(index_path, Directory)]) =
    (Raised (AttributeError "'NoneType' object has no attribute 'as_retriever'"),
     logged (world_of [(index_path, Directory)])
            [Logged INFO "Loading existing SKLearnVectorStore from %s"
                    [AStr (PERSIST_PATH demo_store_libs)];
             Logged ERROR "Error loading vector store: %s"
                    [AExn (LibraryError (lit "cannot read the index"))]]).
Proof.
  apply langgraph_query_tool_unloadable_index.
  - discriminate.
  - reflexivity.
Defined.

(** X20.  An exception of the retriever is not handled: the tool raises
    it, and neither prints nor returns anything. *)
Theorem langgraph_query_tool_retriever_error
    (libs : StoreLibs) (w w1 : world) (query : str)
    (store : vectorstore libs) (e : exn) :
  load_vectorstore libs w = (Returned (Some store), w1) ->
  retriever_invoke libs store 3 query = Raised e ->
  langgraph_query_tool libs query w = (Raised e, w1).
Proof.
  intros Hload Hraise. unfold langgraph_query_tool, bind.
  rewrite Hload. unfold lift. rewrite Hraise. reflexivity.
Qed.

Lemma langgraph_query_tool_retriever_error_witness :
  langgraph_query_tool busy_store_libs (lit "checkpoints") two_chunk_world =
    (Raised (LibraryError (lit "index is empty")),
     snd (load_vectorstore busy_store_libs two_chunk_world)).
Proof.
  apply (@langgraph_query_tool_retriever_error busy_store_libs two_chunk_world
           _ (lit "checkpoints") (index_path, two_chunks));
    reflexivity.
Defined.

(** X21.  The text the tool returns is empty exactly when the retriever
    found no document; otherwise it starts with [==DOCUMENT 1==], a newline
    and the text of the first document. *)
Theorem langgraph_query_tool_first_block
    (libs : StoreLibs) (w w1 : world) (query : str)
    (store : vectorstore libs) (docs : list Document) :
  load_vectorstore libs w = (Returned (Some store), w1) ->
  retriever_invoke libs store 3 query = Returned docs ->
  exists out,
    fst (langgraph_query_tool libs query w) = Returned out /\
    (out = [] <-> docs = []) /\
    (forall doc rest, docs = doc :: rest ->
       exists tail,
         out = lit "==DOCUMENT 1==" ++ [nl] ++ page_content doc ++ tail).
Proof.
  intros Hload Hdocs. eexists. split.
  - now rewrite (@langgraph_query_tool_with_store libs w w1 query store docs
                   Hload Hdocs).
  - destruct docs as [|doc rest]; split.
    + split; reflexivity.
    + intros doc rest. discriminate.
    + split; [|discriminate]. unfold enumerate.
      cbn [length seq combine List.map join format_doc].
      destruct (List.map format_doc _); discriminate.
    + intros doc' rest' [= <- <-]. unfold enumerate.
      cbn [length seq combine List.map].
      destruct (List.map format_doc (combine (seq 1 (length rest)) rest))
        as [|block blocks].
      * exists []. cbn [join format_doc]. now rewrite app_nil_r.
      * exists ([nl; nl] ++ join [nl; nl] (block :: blocks)).
        change (join [nl; nl] (format_doc (0, doc) :: block :: blocks))
          with (format_doc (0, doc) ++ [nl; nl] ++ join [nl; nl] (block :: blocks)).
        unfold format_doc at 1. cbn [Nat.add].
        change (separator 1) with (lit "==DOCUMENT 1==").
        now rewrite <- !app_assoc.
Qed.

Lemma langgraph_query_tool_first_block_witness :
  exists out,
    fst (langgraph_query_tool demo_store_libs (lit "streaming") two_chunk_world)
      = Returned out /\
    (out = [] <-> two_chunks = []) /\
    (forall doc rest, two_chunks = doc :: rest ->
       exists tail,
         out = lit "==DOCUMENT 1==" ++ [nl] ++ page_content doc ++ tail).
Proof.
  apply (@langgraph_query_tool_first_block demo_store_libs two_chunk_world
           (snd (load_vectorstore demo_store_libs two_chunk_world))
           (lit "streaming") (index_path, two_chunks) two_chunks);
    reflexivity.
Defined.

Lemma langgraph_query_tool_marker_count_witness :
  exists out,
    fst (langgraph_query_tool demo_store_libs (lit "streaming") two_chunk_world)
      = Returned out /\
    count_sub out marker = length two_chunks.
Proof.
  apply (@langgraph_query_tool_marker_count demo_store_libs two_chunk_world
           (snd (load_vectorstore demo_store_libs two_chunk_world))
           (lit "streaming") (index_path, two_chunks) two_chunks).
  - reflexivity.
  - reflexivity.
  - intros doc [<-|[<-|[]]]; reflexivity.
Defined.

(** X23.  [load_vectorstore] returns a store exactly when there is an entry
    at [PERSIST_PATH] and the construction from the files succeeds, and the
    store it returns is the constructed one. *)
Theorem load_vectorstore_some_iff
    (libs : StoreLibs) (w : world) (store : vectorstore libs) :
  fst (load_vectorstore libs w) = Returned (Some store) <->
  fs w (PERSIST_PATH libs) <> None /\
  store_construction libs (fs w) = Returned store.
Proof.
  rewrite load_vectorstore_cases. split.
  - destruct (fs w (PERSIST_PATH libs)); [|discriminate].
    destruct (store_construction libs (fs w)); [|discriminate].
    cbn. intros [= ->]. split; [discriminate|reflexivity].
  - intros [Hsome Hbuilt].
    destruct (fs w (PERSIST_PATH libs)); [|congruence].
    now rewrite Hbuilt.
Qed.
